(** * lsql dashboards: building, deploying and renaming Lakeview dashboards

    A shallow embedding of [src/databricks/labs/lsql/dashboards.py]
    (class [Dashboards]) and the properties its specification states.

    - Python [str] is [string], [int] is [Z], [X | None] is [option X],
      [list[X]] is [list X].
    - The dictionary [better_names] is a [gmap string string]; it is one
      object shared by the whole recursive walk, so the walk is written in
      a state monad over that map.
    - A directory is the list of its files, in the order the file system
      enumerates them.
    - [_replace_names] rewrites the dataclass instances in place and
      returns its argument.  Dashboards are trees (no instance is reachable
      twice, as [create_dashboard] and [Dashboard.from_dict] build them),
      so the walk is written as a function to the rewritten value. *)

From Stdlib Require Import String Ascii List ZArith Lia Bool.
From stdpp Require Import base option list gmap strings.

Open Scope string_scope.
Open Scope list_scope.
Open Scope Z_scope.

(** ** The Lakeview data model

    Modelled from the spec: the dataclasses of [databricks.labs.lsql.lakeview]
    are imported by [dashboards.py] but their module is not among the
    sources.  Each record lists the attributes that [dashboards.py] passes
    or reads, in the order of its constructor calls; an attribute that the
    code tests against [None] is an [option]. *)

Module Field.
Record t : Type := mk { name : string; expression : string }.
End Field.

Module Query.
Record t : Type := mk {
  dataset_name : string;
  fields : list Field.t;
  disaggregated : option bool }.
End Query.

Module NamedQuery.
Record t : Type := mk { name : string; query : option Query.t }.
End NamedQuery.

Module CounterFieldEncoding.
Record t : Type := mk { field_name : string; display_name : option string }.
End CounterFieldEncoding.

Module CounterEncodingMap.
Record t : Type := mk { value : option CounterFieldEncoding.t }.
End CounterEncodingMap.

Module CounterSpec.
Record t : Type := mk { encodings : CounterEncodingMap.t }.
End CounterSpec.

Module ControlFieldEncoding.
Record t : Type := mk {
  field_name : string;
  query_name : string;
  display_name : option string }.
End ControlFieldEncoding.

(** A widget's spec is either the counter spec that [create_dashboard]
    builds, or a control (filter) spec, the kind of spec that holds the
    [ControlFieldEncoding]s the renaming walk rewrites. *)
Inductive WidgetSpec : Type :=
| SpecCounter (spec : CounterSpec.t)
| SpecControl (kind : string) (fields : list ControlFieldEncoding.t).

Module Widget.
Record t : Type := mk {
  name : string;
  queries : list NamedQuery.t;
  spec : option WidgetSpec }.
End Widget.

Module Position.
Record t : Type := mk { x : Z; y : Z; width : Z; height : Z }.
End Position.

Module Layout.
Record t : Type := mk { widget : Widget.t; position : Position.t }.
End Layout.

Module Page.
Record t : Type := mk {
  name : string;
  display_name : option string;
  layout : list Layout.t }.
End Page.

Module Dataset.
Record t : Type := mk {
  name : string;
  display_name : option string;
  query : string }.
End Dataset.

Module Dashboard.
Record t : Type := mk { datasets : list Dataset.t; pages : list Page.t }.
End Dashboard.

(** ** Directories

    [pathlib.Path]: a folder has a name and, when it exists, the list of its
    files in enumeration order.  [entries = None] is a path that is not a
    directory, on which [Path.glob] yields nothing. *)

Record File : Type := { file_name : string; read : string }.

Record Folder : Type := { folder_name : string; entries : option (list File) }.

(** [str.endswith] *)
Definition endswith (s suffix : string) : bool :=
  String.prefix (String.rev suffix) (String.rev s).

(** [str.rfind(".")] *)
Definition rfind_dot (name : string) : option nat :=
  match index 0 "." (String.rev name) with
  | Some j => Some (String.length name - 1 - j)%nat
  | None => None
  end.

(** [Path.stem]: the name without its last suffix; a leading or a trailing
    dot starts no suffix. *)
Definition stem (name : string) : string :=
  match rfind_dot name with
  | Some i =>
      if ((0 <? i)%nat && (i <? String.length name - 1)%nat)%bool
      then substring 0 i name
      else name
  | None => name
  end.

(** [dashboard_folder.glob("*.sql")] *)
Definition glob_sql (dashboard_folder : Folder) : list File :=
  match entries dashboard_folder with
  | Some files => filter (λ f, endswith (file_name f) ".sql" = true) files
  | None => []
  end.

(** ** Outcomes of a call *)

Inductive exn : Type :=
| ValueError (message : string)
| AssertionError
| DatabricksError (message : string).

Inductive outcome (A : Type) : Type :=
| Returned (result : A)
| Raised (e : exn).

Arguments Returned {A} result.
Arguments Raised {A} e.

(** ** [Dashboards.create_dashboard] *)

(** The body of the loop: the dataset and the layout entry of one query file. *)
Definition dataset_of (query_path : File) : Dataset.t :=
  Dataset.mk (stem (file_name query_path)) (Some (stem (file_name query_path)))
    (read query_path).

Definition layout_of (dataset : Dataset.t) : Layout.t :=
  let fields := [Field.mk "count" "`count`"] in
  let query := Query.mk (Dataset.name dataset) fields (Some true) in
  let named_query := NamedQuery.mk "main_query" (Some query) in
  let counter_field_encoding := CounterFieldEncoding.mk "count" (Some "count") in
  let counter_spec :=
    CounterSpec.mk (CounterEncodingMap.mk (Some counter_field_encoding)) in
  let widget :=
    Widget.mk (Dataset.name dataset) [named_query] (Some (SpecCounter counter_spec)) in
  let position := Position.mk 0 0 1 3 in
  Layout.mk widget position.

Definition create_dashboard_step
    (acc : list Dataset.t * list Layout.t) (query_path : File)
    : list Dataset.t * list Layout.t :=
  let dataset := dataset_of query_path in
  (acc.1 ++ [dataset], acc.2 ++ [layout_of dataset]).

Definition create_dashboard (dashboard_folder : Folder) : Dashboard.t :=
  let acc := fold_left create_dashboard_step (glob_sql dashboard_folder) ([], []) in
  let page :=
    Page.mk (folder_name dashboard_folder) (Some (folder_name dashboard_folder)) acc.2 in
  Dashboard.mk acc.1 [page].

(** [create_dashboard] has no [raise] statement: on files that can be read
    it returns. *)
Definition create_dashboard_outcome (dashboard_folder : Folder) : outcome Dashboard.t :=
  Returned (create_dashboard dashboard_folder).

(** ** Reading a built dashboard *)

(** The fixed grid width of the specification. *)
Definition GRID_WIDTH : Z := 6.

(** Two positions overlap when their rectangles share a cell. *)
Definition overlap (p q : Position.t) : bool :=
  (Position.x p <? Position.x q + Position.width q)
  && (Position.x q <? Position.x p + Position.width p)
  && (Position.y p <? Position.y q + Position.height q)
  && (Position.y q <? Position.y p + Position.height p).

Definition no_overlaps (layout : list Layout.t) : Prop :=
  ∀ (i j : nat) (a b : Layout.t),
    i ≠ j → layout !! i = Some a → layout !! j = Some b →
    overlap (Layout.position a) (Layout.position b) = false.

Definition within_grid (p : Position.t) : Prop :=
  Position.x p + Position.width p <= GRID_WIDTH.

Definition packing_invariant (dashboard : Dashboard.t) : Prop :=
  Forall (λ page,
    no_overlaps (Page.layout page)
    ∧ Forall (λ l, within_grid (Layout.position l)) (Page.layout page))
    (Dashboard.pages dashboard).

(** The tiles of a dashboard, in layout order, page after page. *)
Definition tiles (dashboard : Dashboard.t) : list Layout.t :=
  concat (map Page.layout (Dashboard.pages dashboard)).

Definition tile_names (dashboard : Dashboard.t) : list string :=
  map (λ l, Widget.name (Layout.widget l)) (tiles dashboard).

Definition tile_positions (dashboard : Dashboard.t) : list Position.t :=
  map Layout.position (tiles dashboard).

(** The names of the fields each tile's queries select. *)
Definition query_field_names (named_query : NamedQuery.t) : list string :=
  match NamedQuery.query named_query with
  | Some query => map Field.name (Query.fields query)
  | None => []
  end.

Definition tile_field_names (dashboard : Dashboard.t) : list (list string) :=
  map (λ l, concat (map query_field_names (Widget.queries (Layout.widget l))))
    (tiles dashboard).

(** The columns a tile filters on: the fields of its control spec. *)
Definition spec_filters (spec : option WidgetSpec) : list string :=
  match spec with
  | Some (SpecControl _ fields) => map ControlFieldEncoding.field_name fields
  | Some (SpecCounter _) | None => []
  end.

Definition tile_filters (dashboard : Dashboard.t) : list string :=
  concat (map (λ l, spec_filters (Widget.spec (Layout.widget l))) (tiles dashboard)).

Definition LF : string := String (ascii_of_nat 10) EmptyString.

(** ** [Dashboards._format_query]

    [sqlglot] is an external library, taken as a parameter: [parse] raises
    [sqlglot.ParseError] ([None] here) or returns the statements of the
    text, some of which may be [None]; [sql] is the generator call with the
    options the code fixes. *)

Section FormatQuery.

Variable Expression : Type.
Variable sqlglot_parse : string → option (list (option Expression)).
Variable sql : Expression → string.

(** The loop that collects the generated text of every statement that is
    not [None]. *)
Fixpoint format_statements (parsed_query : list (option Expression)) : list string :=
  match parsed_query with
  | [] => []
  | None :: rest => format_statements rest
  | Some statement :: rest => sql statement :: format_statements rest
  end.

Definition _format_query (query : string) : string :=
  match sqlglot_parse query with
  | None => query
  | Some parsed_query =>
      String.concat (String.append ";" LF) (format_statements parsed_query)
  end.

End FormatQuery.

(** ** [Dashboards.deploy_dashboard]

    The workspace client is a parameter: [lakeview] answers a call of
    [ws.lakeview.create] or [ws.lakeview.update].  A run of
    [deploy_dashboard] is the list of the calls it made, in order, and its
    outcome. *)

Inductive LakeviewCall : Type :=
| LakeviewCreate (display_name serialized_dashboard : string)
| LakeviewUpdate (dashboard_id serialized_dashboard : string).

(** [o is None] *)
Definition is_None {A : Type} (o : option A) : bool :=
  match o with None => true | Some _ => false end.

Section Deploy.

Variable SDKDashboard : Type.
Variable lakeview : LakeviewCall → outcome SDKDashboard.
(** [json.dumps(lakeview_dashboard.as_dict())] *)
Variable dumps : Dashboard.t → string.

Definition deploy_dashboard
    (lakeview_dashboard : Dashboard.t)
    (display_name dashboard_id : option string)
    : list LakeviewCall * outcome SDKDashboard :=
  if (is_None display_name && is_None dashboard_id)
     || (negb (is_None display_name) && negb (is_None dashboard_id))
  then ([], Raised (ValueError "Give either display_name or dashboard_id."))
  else
    match display_name with
    | Some display_name =>
        let call := LakeviewCreate display_name (dumps lakeview_dashboard) in
        ([call], lakeview call)
    | None =>
        match dashboard_id with
        | Some dashboard_id =>
            let call := LakeviewUpdate dashboard_id (dumps lakeview_dashboard) in
            ([call], lakeview call)
        | None => ([], Raised AssertionError)
        end
    end.

End Deploy.

(** ** [Dashboards.get_dashboard]

    [download] is [ws.workspace.download(path, format=ExportFormat.SOURCE)]
    read and decoded; [from_json] is [json.loads] followed by
    [Dashboard.from_dict]. *)

Section GetDashboard.

Variable download : string → outcome string.
Variable from_json : string → Dashboard.t.


End GetDashboard.

(** ** The name map and the renaming walk

    [better_names] is created once by [_with_better_names] and handed to
    every recursive call of [_replace_names], which reads it and, at a
    [NamedQuery], writes it: a computation of the walk takes the map and
    returns its result with the map as it left it. *)

Definition Renaming (A : Type) : Type :=
  gmap string string → A * gmap string string.

Definition ret {A : Type} (a : A) : Renaming A := λ better_names, (a, better_names).

Definition bind {A B : Type} (c : Renaming A) (k : A → Renaming B) : Renaming B :=
  λ better_names, let (a, better_names') := c better_names in k a better_names'.

Notation "'let*' x ':=' c 'in' k" := (bind c (λ x, k))
  (at level 10, x name, c at level 100, k at level 200).

(** [better_names.get(name, name)] *)
Definition names_get (name : string) : Renaming string :=
  λ better_names, (default name (better_names !! name), better_names).

(** [better_names[key] = value] *)
Definition names_set (key value : string) : Renaming unit :=
  λ better_names, (tt, <[key := value]> better_names).

(** [[self._replace_names(item, better_names) for item in value]] *)
Fixpoint for_each {A : Type} (f : A → Renaming A) (items : list A) : Renaming (list A) :=
  match items with
  | [] => ret []
  | item :: rest =>
      let* item' := f item in
      let* rest' := for_each f rest in
      ret (item' :: rest')
  end.

(** [setattr(node, field.name, self._replace_names(value, better_names))]
    on an attribute that may be [None] *)
Definition for_some {A : Type} (f : A → Renaming A) (value : option A) : Renaming (option A) :=
  match value with
  | Some v => let* v' := f v in ret (Some v')
  | None => ret None
  end.

(** ["_".join(parts)] with [parts] the dataset name followed by the name of
    every field of the query. *)
Definition new_name (query : Query.t) : string :=
  String.concat "_" (Query.dataset_name query :: map Field.name (Query.fields query)).

Section ReplaceNames.

(** [spec.as_dict().get("widgetType")]: the type tag a spec declares, if
    any; [as_dict] belongs to the [lakeview] module. *)
Variable widgetType : WidgetSpec → option string.

(** [_replace_names], one function for each class of node.  Attributes are
    walked in declaration order, then the node itself is renamed. *)

Definition _replace_names_Field (node : Field.t) : Renaming Field.t := ret node.

Definition _replace_names_Query (node : Query.t) : Renaming Query.t :=
  let* fields := for_each _replace_names_Field (Query.fields node) in
  let* dataset_name := names_get (Query.dataset_name node) in
  ret (Query.mk dataset_name fields (Query.disaggregated node)).

Definition _replace_names_NamedQuery (node : NamedQuery.t) : Renaming NamedQuery.t :=
  let* query := for_some _replace_names_Query (NamedQuery.query node) in
  match query with
  | Some q =>
      let* _ :=
        (if String.prefix "dashboards/" (NamedQuery.name node)
         then names_set (NamedQuery.name node) (new_name q)
         else ret tt) in
      let* name := names_get (NamedQuery.name node) in
      ret (NamedQuery.mk name query)
  | None => ret (NamedQuery.mk (NamedQuery.name node) query)
  end.

Definition _replace_names_ControlFieldEncoding
    (node : ControlFieldEncoding.t) : Renaming ControlFieldEncoding.t :=
  let* query_name := names_get (ControlFieldEncoding.query_name node) in
  ret (ControlFieldEncoding.mk (ControlFieldEncoding.field_name node) query_name
         (ControlFieldEncoding.display_name node)).

(** Nothing below a [CounterSpec] is renamed. *)
Definition _replace_names_WidgetSpec (node : WidgetSpec) : Renaming WidgetSpec :=
  match node with
  | SpecCounter spec => ret (SpecCounter spec)
  | SpecControl kind fields =>
      let* fields := for_each _replace_names_ControlFieldEncoding fields in
      ret (SpecControl kind fields)
  end.

Definition _replace_names_Widget (node : Widget.t) : Renaming Widget.t :=
  let* queries := for_each _replace_names_NamedQuery (Widget.queries node) in
  let* spec := for_some _replace_names_WidgetSpec (Widget.spec node) in
  let name :=
    match spec with
    | Some spec => default (Widget.name node) (widgetType spec)
    | None => Widget.name node
    end in
  ret (Widget.mk name queries spec).

Definition _replace_names_Layout (node : Layout.t) : Renaming Layout.t :=
  let* widget := _replace_names_Widget (Layout.widget node) in
  ret (Layout.mk widget (Layout.position node)).

Definition _replace_names_Page (node : Page.t) : Renaming Page.t :=
  let* layout := for_each _replace_names_Layout (Page.layout node) in
  let* name := names_get (Page.name node) in
  ret (Page.mk name (Page.display_name node) layout).

Definition _replace_names_Dataset (node : Dataset.t) : Renaming Dataset.t :=
  let* name := names_get (Dataset.name node) in
  ret (Dataset.mk name (Dataset.display_name node) (Dataset.query node)).

Definition _replace_names (node : Dashboard.t) : Renaming Dashboard.t :=
  let* datasets := for_each _replace_names_Dataset (Dashboard.datasets node) in
  let* pages := for_each _replace_names_Page (Dashboard.pages node) in
  ret (Dashboard.mk datasets pages).

(** The two loops of [_with_better_names] that fill the map. *)
Definition add_display_name
    (better_names : gmap string string) (name : string) (display_name : option string)
    : gmap string string :=
  match display_name with
  | Some display_name => <[name := display_name]> better_names
  | None => better_names
  end.

Definition display_names (dashboard : Dashboard.t) : gmap string string :=
  let better_names :=
    fold_left (λ names dataset,
        add_display_name names (Dataset.name dataset) (Dataset.display_name dataset))
      (Dashboard.datasets dashboard) ∅ in
  fold_left (λ names page,
      add_display_name names (Page.name page) (Page.display_name page))
    (Dashboard.pages dashboard) better_names.

Definition _with_better_names (dashboard : Dashboard.t) : Dashboard.t :=
  (_replace_names dashboard (display_names dashboard)).1.

End ReplaceNames.

(** ** [Dashboards.save_to_folder]

    The files written, in order, and the dashboard returned.  A [File] here
    is a file as it is left on disk: its name and the text written. *)

Section SaveToFolder.

Variable widgetType : WidgetSpec → option string.
Variable Expression : Type.
Variable sqlglot_parse : string → option (list (option Expression)).
Variable sql : Expression → string.
(** [yaml.safe_dump(page.as_dict(), f)] *)
Variable dump_page : Page.t → string.

Definition save_to_folder (dashboard : Dashboard.t) : list File * Dashboard.t :=
  let dashboard := _with_better_names widgetType dashboard in
  let queries :=
    map (λ dataset,
        {| file_name := String.append (Dataset.name dataset) ".sql";
           read := _format_query Expression sqlglot_parse sql (Dataset.query dataset) |})
      (Dashboard.datasets dashboard) in
  let pages :=
    map (λ page,
        {| file_name := String.append (Page.name page) ".yml";
           read := dump_page page |})
      (Dashboard.pages dashboard) in
  (queries ++ pages, dashboard).

End SaveToFolder.

(** What the specification asks of a [NamedQuery]: a name that starts with
    [dashboards/] becomes the new name made of the query's dataset name and
    field names, and the map learns it; any other name is looked up. *)
Definition NamedQuery_renamed
    (node : NamedQuery.t) (better_names : gmap string string)
    (node' : NamedQuery.t) (better_names' : gmap string string) : Prop :=
  if String.prefix "dashboards/" (NamedQuery.name node)
  then ∃ query', NamedQuery.query node' = Some query'
                 ∧ NamedQuery.name node' = new_name query'
                 ∧ better_names' = <[NamedQuery.name node := new_name query']> better_names
  else NamedQuery.name node' = default (NamedQuery.name node) (better_names !! NamedQuery.name node)
       ∧ better_names' = better_names.

(** ** Names that look remote-generated

    The walk treats a name that starts with [dashboards/] as generated by
    the remote service; any other name is plain. *)

Definition reserved (name : string) : bool := String.prefix "dashboards/" name.

Definition plain (name : string) : Prop := reserved name = false.

Definition plain_display (display_name : option string) : Prop :=
  match display_name with
  | Some name => plain name
  | None => True
  end.

Definition plain_NamedQuery (node : NamedQuery.t) : Prop :=
  match NamedQuery.query node with
  | Some query => plain (Query.dataset_name query)
  | None => True
  end.

Definition plain_Layout (node : Layout.t) : Prop :=
  Forall plain_NamedQuery (Widget.queries (Layout.widget node)).

(** The (name, display name) pairs the two loops of [_with_better_names]
    run over, in order. *)
Definition name_entries (dashboard : Dashboard.t) : list (string * option string) :=
  map (λ dataset, (Dataset.name dataset, Dataset.display_name dataset))
    (Dashboard.datasets dashboard)
  ++ map (λ page, (Page.name page, Page.display_name page)) (Dashboard.pages dashboard).

(** The display name that the last entry called [name] declares, if any
    entry called [name] declares one. *)
Fixpoint last_display (name : string) (entries : list (string * option string))
    : option string :=
  match entries with
  | [] => None
  | (name', display_name) :: rest =>
      match last_display name rest with
      | Some found => Some found
      | None => if decide (name' = name) then display_name else None
      end
  end.

(** Entries that declare their own name as display name. *)
Definition own_names (entries : list (string * option string)) : Prop :=
  Forall (λ e, e.2 = Some e.1) entries.

(** A map fixes its keys when it sends each of them to itself. *)
Definition fixes (better_names : gmap string string) : Prop :=
  ∀ key found, better_names !! key = Some found → found = key.

(** A map whose values are all plain. *)
Definition plain_values (better_names : gmap string string) : Prop :=
  ∀ key found, better_names !! key = Some found → plain found.

(** Two maps that agree on the plain keys. *)
Definition agree_on_plain (m0 m : gmap string string) : Prop :=
  ∀ key, plain key → m !! key = m0 !! key.

(** Nodes that a walk with a map that fixes its keys leaves alone. *)
Definition settled_NamedQuery (node : NamedQuery.t) : Prop :=
  match NamedQuery.query node with
  | Some _ => plain (NamedQuery.name node)
  | None => True
  end.

Definition settled_Widget (widgetType : WidgetSpec → option string) (node : Widget.t) : Prop :=
  Forall settled_NamedQuery (Widget.queries node)
  ∧ match Widget.spec node with
    | Some spec => default (Widget.name node) (widgetType spec) = Widget.name node
    | None => True
    end.

Definition settled_Page (widgetType : WidgetSpec → option string) (node : Page.t) : Prop :=
  Forall (λ l, settled_Widget widgetType (Layout.widget l)) (Page.layout node).

Definition settled (widgetType : WidgetSpec → option string) (dashboard : Dashboard.t) : Prop :=
  Forall (settled_Page widgetType) (Dashboard.pages dashboard).

(** Modelled from the spec: the [widgetType] entry of [spec.as_dict()],
    which the [lakeview] module computes.  A counter spec declares
    [counter]; a control spec declares its kind. *)
Definition lakeview_widgetType (spec : WidgetSpec) : option string :=
  match spec with
  | SpecCounter _ => Some "counter"
  | SpecControl kind _ => Some kind
  end.

(** A dashboard whose dataset has a display name that looks
    remote-generated. *)
Definition clash_dashboard : Dashboard.t :=
  Dashboard.mk
    [Dataset.mk "q" (Some "dashboards/d") "SELECT 1 AS count"]
    [Page.mk "page" None
       [Layout.mk
          (Widget.mk "w"
             [NamedQuery.mk "q" (Some (Query.mk "q" [Field.mk "count" "`count`"] None))]
             None)
          (Position.mk 0 0 1 3)]].

(** The counter spec of every built tile. *)
Definition count_spec : WidgetSpec :=
  SpecCounter
    (CounterSpec.mk
       (CounterEncodingMap.mk (Some (CounterFieldEncoding.mk "count" (Some "count"))))).

(** ** What the remote service hands back

    What the service does between [deploy_dashboard] and [get_dashboard] is
    not part of the program.  A dashboard that was deployed and fetched
    back is taken to be the deployed one up to the identifiers the service
    assigns: the name of every dataset and
    page is replaced by [assigned], dataset references of queries follow,
    and widget names are replaced freely.  [named_query_names] says how the
    name of a named query may change.  Display names, queries, fields,
    specs and positions are kept. *)

Section Remote.

Variable assigned : string → string.
Variable named_query_names : string → string → Prop.








End Remote.

(** The tile of dataset [name] after normalization, when a counter spec
    declares the type tag [tag]. *)
Definition normal_tile (tag name : string) : Layout.t :=
  Layout.mk
    (Widget.mk tag
       [NamedQuery.mk "main_query"
          (Some (Query.mk name [Field.mk "count" "`count`"] (Some true)))]
       (Some count_spec))
    (Position.mk 0 0 1 3).

(** The normal form of the dashboard built from a folder. *)
Definition normal_dashboard (tag : string) (dashboard_folder : Folder) : Dashboard.t :=
  Dashboard.mk
    (map dataset_of (glob_sql dashboard_folder))
    [Page.mk (folder_name dashboard_folder) (Some (folder_name dashboard_folder))
       (map (λ f, normal_tile tag (stem (file_name f))) (glob_sql dashboard_folder))].


(** ** A stand-in for the SQL parser

    Used for examples only: a text parses, to a single statement printed
    as it is, when its parentheses are balanced. *)

Fixpoint balanced (depth : nat) (text : string) : bool :=
  match text with
  | EmptyString => Nat.eqb depth 0
  | String "(" rest => balanced (S depth) rest
  | String ")" rest =>
      match depth with
      | O => false
      | S depth' => balanced depth' rest
      end
  | String _ rest => balanced depth rest
  end.

Definition paren_parse (query : string) : option (list (option string)) :=
  if balanced 0 query then Some [Some query] else None.

(** ** Folders used as examples *)

Definition sql_file (name text : string) : File :=
  {| file_name := name; read := text |}.

(** A path that is not a directory. *)
Definition missing_folder : Folder :=
  {| folder_name := "nowhere"; entries := None |}.

(** A directory without files. *)
Definition empty_folder : Folder :=
  {| folder_name := "empty"; entries := Some [] |}.

(** A directory whose only file is no query. *)
Definition notes_folder : Folder :=
  {| folder_name := "notes"; entries := Some [sql_file "README.txt" "nothing to see"] |}.

Definition two_counters_folder : Folder :=
  {| folder_name := "counters";
     entries := Some [sql_file "counter_0.sql" "SELECT 0 AS count";
                      sql_file "counter_1.sql" "SELECT 1 AS count"] |}.

Definition big_widget_query : string :=
  String.append "-- --width 6 --height 3" (String.append LF "SELECT 1").

Definition big_widget_folder : Folder :=
  {| folder_name := "big"; entries := Some [sql_file "counter.sql" big_widget_query] |}.

Definition filter_query : string :=
  String.append "-- --filter City State Country"
    (String.append LF "SELECT City, State, Country FROM offices").

Definition filter_folder : Folder :=
  {| folder_name := "offices"; entries := Some [sql_file "table.sql" filter_query] |}.

(** The six queries of the ordering test, [4.sql] asking for order 1. *)
Definition order_folder : Folder :=
  {| folder_name := "ordered";
     entries := Some [sql_file "0.sql" "SELECT 0 AS count";
                      sql_file "1.sql" "SELECT 1 AS count";
                      sql_file "2.sql" "SELECT 2 AS count";
                      sql_file "3.sql" "SELECT 3 AS count";
                      sql_file "4.sql"
                        (String.append "-- --order 1" (String.append LF "SELECT 4 AS count"));
                      sql_file "5.sql" "SELECT 5 AS count"] |}.

Definition total_folder : Folder :=
  {| folder_name := "totals"; entries := Some [sql_file "total.sql" "SELECT 10 AS total"] |}.

(** The dashboard built when no query file is found. *)
Definition empty_dashboard (name : string) : Dashboard.t :=
  Dashboard.mk [] [Page.mk name (Some name) []].


(** A dashboard as the service exports it: generated names everywhere, a
    counter and a filter over the same named query. *)
Definition exported_query_name : string :=
  "dashboards/01eeb077e38c17e6ba3511036985960c/datasets/01eeb081882017f6a116991d124d3068_count".

Definition exported_dashboard : Dashboard.t :=
  Dashboard.mk
    [Dataset.mk "01eeb081882017f6a116991d124d3068" (Some "counter") "SELECT 10 AS count"]
    [Page.mk "01eeb07a" (Some "Counters")
       [Layout.mk
          (Widget.mk "3a7b90f1"
             [NamedQuery.mk exported_query_name
                (Some (Query.mk "01eeb081882017f6a116991d124d3068"
                         [Field.mk "count" "`count`"] (Some true)))]
             (Some count_spec))
          (Position.mk 0 0 1 3);
        Layout.mk
          (Widget.mk "9c1d22e4"
             [NamedQuery.mk exported_query_name
                (Some (Query.mk "01eeb081882017f6a116991d124d3068"
                         [Field.mk "count" "`count`"] (Some false)))]
             (Some (SpecControl "filter-single-select"
                      [ControlFieldEncoding.mk "count" exported_query_name (Some "count")])))
          (Position.mk 1 0 2 1)]].

(** A query as the remote service names it, over dataset [counter]. *)
Definition remote_named_query : NamedQuery.t :=
  NamedQuery.mk "dashboards/01eeb077e38c17e6ba3511036985960c/datasets/01eeb081882017f6a116991d124d3068_x"
    (Some (Query.mk "counter" [Field.mk "count" "`count`"] None)).

(** ** Erasing names

    The dashboard with every name the walk can rewrite blanked: dataset
    names, page names, dataset references of queries, names of named
    queries, query names of control field encodings and widget names.
    Everything else is kept. *)

Definition erase_Query (node : Query.t) : Query.t :=
  Query.mk "" (Query.fields node) (Query.disaggregated node).

Definition erase_NamedQuery (node : NamedQuery.t) : NamedQuery.t :=
  NamedQuery.mk "" (option_map erase_Query (NamedQuery.query node)).

Definition erase_ControlFieldEncoding (node : ControlFieldEncoding.t) : ControlFieldEncoding.t :=
  ControlFieldEncoding.mk (ControlFieldEncoding.field_name node) ""
    (ControlFieldEncoding.display_name node).

Definition erase_WidgetSpec (node : WidgetSpec) : WidgetSpec :=
  match node with
  | SpecCounter spec => SpecCounter spec
  | SpecControl kind fields => SpecControl kind (map erase_ControlFieldEncoding fields)
  end.

Definition erase_Widget (node : Widget.t) : Widget.t :=
  Widget.mk "" (map erase_NamedQuery (Widget.queries node))
    (option_map erase_WidgetSpec (Widget.spec node)).

Definition erase_Layout (node : Layout.t) : Layout.t :=
  Layout.mk (erase_Widget (Layout.widget node)) (Layout.position node).

Definition erase_Page (node : Page.t) : Page.t :=
  Page.mk "" (Page.display_name node) (map erase_Layout (Page.layout node)).

Definition erase_Dataset (node : Dataset.t) : Dataset.t :=
  Dataset.mk "" (Dataset.display_name node) (Dataset.query node).

Definition erase_names (dashboard : Dashboard.t) : Dashboard.t :=
  Dashboard.mk (map erase_Dataset (Dashboard.datasets dashboard))
    (map erase_Page (Dashboard.pages dashboard)).

(** ** Reading names and references *)

(** The dataset a named query refers to, if it has a query. *)
Definition query_dataset_name (node : NamedQuery.t) : option string :=
  Query.dataset_name <$> NamedQuery.query node.

(** For every tile, the dataset references of its named queries. *)
Definition tile_dataset_names (dashboard : Dashboard.t) : list (list (option string)) :=
  map (λ l, map query_dataset_name (Widget.queries (Layout.widget l))) (tiles dashboard).

(** The name a map gives: [better_names.get(name, name)]. *)
Definition better_name (better_names : gmap string string) (name : string) : string :=
  default name (better_names !! name).

(** The widget is named by the type tag of its spec, when the spec
    declares one. *)
Definition named_by_tag (widgetType : WidgetSpec → option string) (node : Widget.t) : Prop :=
  ∀ spec tag, Widget.spec node = Some spec → widgetType spec = Some tag →
    Widget.name node = tag.

(** The control field encodings of a spec. *)
Definition spec_fields (spec : option WidgetSpec) : list ControlFieldEncoding.t :=
  match spec with
  | Some (SpecControl _ fields) => fields
  | Some (SpecCounter _) | None => []
  end.

(** The field encoding names a named query of the widget that has a query. *)
Definition refers_to_query (node : Widget.t) (field : ControlFieldEncoding.t) : Prop :=
  ∃ named_query, named_query ∈ Widget.queries node
    ∧ NamedQuery.name named_query = ControlFieldEncoding.query_name field
    ∧ is_Some (NamedQuery.query named_query).

(** Every field encoding of [node] that named such a query of [node] names,
    in [node'], a named query of [node']. *)
Definition references_kept (node node' : Widget.t) : Prop :=
  Forall2 (λ field field',
      refers_to_query node field →
      ControlFieldEncoding.query_name field' ∈ map NamedQuery.name (Widget.queries node'))
    (spec_fields (Widget.spec node)) (spec_fields (Widget.spec node')).

(** ** Another stand-in for the SQL parser

    Used for examples only: a text that starts with a line comment holds
    no statement; any other text is one statement, printed as it is. *)
Definition comment_parse (query : string) : option (list (option string)) :=
  if String.prefix "--" query then Some [None] else Some [Some query].

(** A folder that holds the given queries, each as the file
    [<name>.sql], and nothing else. *)
Definition folder_of_queries (name : string) (queries : list (string * string)) : Folder :=
  {| folder_name := name;
     entries := Some (map (λ q, sql_file (String.append q.1 ".sql") q.2) queries) |}.

(** An entry declares no display name, or its own name. *)
Definition keeps_own_name (entry : string * option string) : Prop :=
  match entry.2 with
  | Some display_name => display_name = entry.1
  | None => True
  end.

(** ** Dashboards whose display names and page names are plain *)

(** No display name of a dataset or page, and no page name, starts with
    [dashboards/].  Dataset names and dataset references of queries are
    free. *)
Definition plain_displays (dashboard : Dashboard.t) : Prop :=
  Forall (λ dataset, plain_display (Dataset.display_name dataset))
    (Dashboard.datasets dashboard)
  ∧ Forall (λ page, plain (Page.name page) ∧ plain_display (Page.display_name page))
      (Dashboard.pages dashboard).

(** A named query whose name, if it starts with [dashboards/], is the new
    name of its own query. *)
Definition synthesized_NamedQuery (node : NamedQuery.t) : Prop :=
  match NamedQuery.query node with
  | Some query => reserved (NamedQuery.name node) = true → NamedQuery.name node = new_name query
  | None => True
  end.

Definition normal_Widget (widgetType : WidgetSpec → option string) (node : Widget.t) : Prop :=
  Forall synthesized_NamedQuery (Widget.queries node)
  ∧ match Widget.spec node with
    | Some spec => default (Widget.name node) (widgetType spec) = Widget.name node
    | None => True
    end.

Definition normal_Page (widgetType : WidgetSpec → option string) (node : Page.t) : Prop :=
  Forall (λ l, normal_Widget widgetType (Layout.widget l)) (Page.layout node).

Definition normal (widgetType : WidgetSpec → option string) (dashboard : Dashboard.t) : Prop :=
  Forall (normal_Page widgetType) (Dashboard.pages dashboard).

(** A dashboard whose page name looks remote-generated and is also the
    name of one of its named queries. *)
Definition page_clash_dashboard : Dashboard.t :=
  Dashboard.mk []
    [Page.mk "dashboards/k" (Some "Overview")
       [Layout.mk
          (Widget.mk "w"
             [NamedQuery.mk "dashboards/k"
                (Some (Query.mk "q" [Field.mk "count" "`count`"] None))]
             None)
          (Position.mk 0 0 1 3)]].

(** A dashboard whose dataset name and dataset reference start with
    [dashboards/], with plain display names and page name. *)
Definition prefixed_dashboard : Dashboard.t :=
  Dashboard.mk
    [Dataset.mk "dashboards/01ee/datasets/01ef" (Some "counter") "SELECT 10 AS count";
     Dataset.mk "dashboards/01ee/datasets/02aa" None "SELECT 11 AS count"]
    [Page.mk "01eeb07a" (Some "Counters")
       [Layout.mk
          (Widget.mk "3a7b90f1"
             [NamedQuery.mk "dashboards/01ee/datasets/01ef_count"
                (Some (Query.mk "dashboards/01ee/datasets/01ef"
                         [Field.mk "count" "`count`"] (Some true)));
              NamedQuery.mk "dashboards/01ee/datasets/02aa_count"
                (Some (Query.mk "dashboards/01ee/datasets/02aa"
                         [Field.mk "count" "`count`"] (Some true)))]
             (Some count_spec))
          (Position.mk 0 0 1 3)]].

(** ** [_format_query] with the exceptions of the library

    [sqlglot.parse] and [statement.sql] are library calls that may raise:
    [ParseError], the one class the code catches, or another class of
    [sqlglot.errors] such as [TokenError] (raised while the text is split
    into tokens) and [UnsupportedError] (raised by the generator).  Only
    the call of [parse] stands inside the [try]. *)

Inductive sqlglot_error : Type :=
| ParseError (message : string)
| TokenError (message : string)
| UnsupportedError (message : string).

Inductive attempt (A : Type) : Type :=
| Done (result : A)
| Raises (e : sqlglot_error).

Arguments Done {A} result.
Arguments Raises {A} e.

Section FormatQueryRaising.

Variable Expression : Type.
Variable sqlglot_parse : string → attempt (list (option Expression)).
Variable sql : Expression → attempt string.

(** The loop: the statements are printed in order and the first exception
    ends it. *)
Fixpoint generate_statements (parsed_query : list (option Expression))
    : attempt (list string) :=
  match parsed_query with
  | [] => Done []
  | None :: rest => generate_statements rest
  | Some statement :: rest =>
      match sql statement with
      | Raises e => Raises e
      | Done text =>
          match generate_statements rest with
          | Raises e => Raises e
          | Done statements => Done (text :: statements)
          end
      end
  end.

Definition _format_query_raising (query : string) : attempt string :=
  match sqlglot_parse query with
  | Raises (ParseError _) => Done query
  | Raises e => Raises e
  | Done parsed_query =>
      match generate_statements parsed_query with
      | Raises e => Raises e
      | Done statements => Done (String.concat (String.append ";" LF) statements)
      end
  end.

(** The parser as [_format_query] sees it when [ParseError] is its only
    exception. *)
Definition caught_parse (query : string) : option (list (option Expression)) :=
  match sqlglot_parse query with
  | Done parsed_query => Some parsed_query
  | Raises _ => None
  end.

End FormatQueryRaising.



(** ** Deploying and fetching back through the service

    [deploy_dashboard] hands the serialized dashboard to the service and
    receives a description of the deployed dashboard, whose [path] names
    the document that [get_dashboard] downloads.  What the service stores
    and serves is not part of the program; the service is described by a
    contract. *)

(** The [serialized_dashboard] argument of a call. *)
Definition serialized_dashboard (call : LakeviewCall) : string :=
  match call with
  | LakeviewCreate _ serialized | LakeviewUpdate _ serialized => serialized
  end.

Section Service.

Variable SDKDashboard : Type.
(** [sdk_dashboard.path] *)
Variable path : SDKDashboard → string.
Variable lakeview : LakeviewCall → outcome SDKDashboard.
Variable dumps : Dashboard.t → string.
Variable download : string → outcome string.
Variable from_json : string → Dashboard.t.
Variable assigned : string → string.


End Service.

(** Equality of dataclass instances is decidable. *)
#[global] Instance Field_eq_dec : EqDecision Field.t.
Proof. solve_decision. Defined.
#[global] Instance Query_eq_dec : EqDecision Query.t.
Proof. solve_decision. Defined.
#[global] Instance NamedQuery_eq_dec : EqDecision NamedQuery.t.
Proof. solve_decision. Defined.
#[global] Instance CounterFieldEncoding_eq_dec : EqDecision CounterFieldEncoding.t.
Proof. solve_decision. Defined.
#[global] Instance CounterEncodingMap_eq_dec : EqDecision CounterEncodingMap.t.
Proof. solve_decision. Defined.
#[global] Instance CounterSpec_eq_dec : EqDecision CounterSpec.t.
Proof. solve_decision. Defined.
#[global] Instance ControlFieldEncoding_eq_dec : EqDecision ControlFieldEncoding.t.
Proof. solve_decision. Defined.
#[global] Instance WidgetSpec_eq_dec : EqDecision WidgetSpec.
Proof. solve_decision. Defined.
#[global] Instance Widget_eq_dec : EqDecision Widget.t.
Proof. solve_decision. Defined.
#[global] Instance Position_eq_dec : EqDecision Position.t.
Proof. solve_decision. Defined.
#[global] Instance Layout_eq_dec : EqDecision Layout.t.
Proof. solve_decision. Defined.
#[global] Instance Page_eq_dec : EqDecision Page.t.
Proof. solve_decision. Defined.
#[global] Instance Dataset_eq_dec : EqDecision Dataset.t.
Proof. solve_decision. Defined.
#[global] Instance Dashboard_eq_dec : EqDecision Dashboard.t.
Proof. solve_decision. Defined.





(** * Properties *)

(** ** [create_dashboard] *)

Lemma create_dashboard_fold (files : list File) (acc : list Dataset.t * list Layout.t) :
  fold_left create_dashboard_step files acc
  = (acc.1 ++ map dataset_of files,
     acc.2 ++ map (λ f, layout_of (dataset_of f)) files).
Proof.
  revert acc. induction files as [|f files IH]; intros [ds ls]; simpl.
  - by rewrite !app_nil_r.
  - rewrite IH. simpl. by rewrite <- !app_assoc.
Qed.

Lemma create_dashboard_eq (dashboard_folder : Folder) :
  create_dashboard dashboard_folder
  = Dashboard.mk
      (map dataset_of (glob_sql dashboard_folder))
      [Page.mk (folder_name dashboard_folder) (Some (folder_name dashboard_folder))
         (map (λ f, layout_of (dataset_of f)) (glob_sql dashboard_folder))].
Proof. unfold create_dashboard. by rewrite create_dashboard_fold. Qed.

Lemma tiles_create_dashboard (dashboard_folder : Folder) :
  tiles (create_dashboard dashboard_folder)
  = map (λ f, layout_of (dataset_of f)) (glob_sql dashboard_folder).
Proof. rewrite create_dashboard_eq. unfold tiles. simpl. by rewrite app_nil_r. Qed.

Lemma position_layout_of (dataset : Dataset.t) :
  Layout.position (layout_of dataset) = Position.mk 0 0 1 3.
Proof. reflexivity. Qed.

Lemma overlap_fixed_position : overlap (Position.mk 0 0 1 3) (Position.mk 0 0 1 3) = true.
Proof. reflexivity. Qed.

(** Layout entries that all sit at the fixed position are free of overlaps
    exactly when there is at most one of them. *)
Lemma no_overlaps_fixed_position (layout : list Layout.t) :
  Forall (λ l, Layout.position l = Position.mk 0 0 1 3) layout →
  no_overlaps layout ↔ (length layout ≤ 1)%nat.
Proof.
  intros Hpos. split.
  - intros Hno. destruct layout as [|a [|b rest]]; simpl; try lia.
    exfalso.
    specialize (Hno 0%nat 1%nat a b).
    inversion Hpos as [|? ? Ha Hrest]; subst.
    inversion Hrest as [|? ? Hb _]; subst.
    rewrite Ha, Hb, overlap_fixed_position in Hno.
    discriminate Hno; done.
  - intros Hlen i j a b Hij Hi Hj.
    apply lookup_lt_Some in Hi, Hj. lia.
Qed.

(** C1, as stated, fails: two query files give two tiles on the same cells. *)
Lemma create_dashboard_tiles_overlap :
  ¬ packing_invariant (create_dashboard two_counters_folder).
Proof.
  unfold packing_invariant. intros H.
  apply Forall_inv in H. destruct H as [Hno _].
  specialize (Hno 0%nat 1%nat _ _ ltac:(lia) eq_refl eq_refl).
  vm_compute in Hno. discriminate Hno.
Qed.

(** C1, amended: every tile of a built dashboard gets the fixed position
    x=0, y=0, width=1, height=3, which lies within the grid of width 6; the
    tiles of the page are free of overlaps exactly when the folder holds at
    most one query file. *)
Theorem create_dashboard_positions (dashboard_folder : Folder) :
  Forall (λ page,
    Forall (λ l, Layout.position l = Position.mk 0 0 1 3
                 ∧ within_grid (Layout.position l)) (Page.layout page)
    ∧ (no_overlaps (Page.layout page)
       ↔ (length (glob_sql dashboard_folder) ≤ 1)%nat))
    (Dashboard.pages (create_dashboard dashboard_folder)).
Proof.
  rewrite create_dashboard_eq. simpl.
  constructor; [|constructor]. simpl.
  assert (Hpos : Forall (λ l, Layout.position l = Position.mk 0 0 1 3)
            (map (λ f, layout_of (dataset_of f)) (glob_sql dashboard_folder))).
  { apply Forall_forall. intros l Hl. apply list_elem_of_In, in_map_iff in Hl.
    destruct Hl as (f & <- & _). reflexivity. }
  split.
  - apply (Forall_impl _ _ _ Hpos). intros l Hl. split; [exact Hl|].
    unfold within_grid, GRID_WIDTH. rewrite Hl. simpl. lia.
  - etransitivity; [exact (no_overlaps_fixed_position _ Hpos)|].
    by rewrite length_map.
Qed.

Lemma widths_create_dashboard (dashboard_folder : Folder) :
  Forall (λ p, Position.width p = 1 ∧ Position.height p = 3)
    (tile_positions (create_dashboard dashboard_folder)).
Proof.
  unfold tile_positions. rewrite tiles_create_dashboard, map_map.
  apply Forall_forall. intros p Hp.
  apply list_elem_of_In, in_map_iff in Hp. destruct Hp as (f & <- & _). done.
Qed.

Lemma specs_create_dashboard (dashboard_folder : Folder) :
  Forall (λ l, Widget.spec (Layout.widget l) = Some count_spec)
    (tiles (create_dashboard dashboard_folder)).
Proof.
  rewrite tiles_create_dashboard. apply Forall_forall. intros l Hl.
  apply list_elem_of_In, in_map_iff in Hl. by destruct Hl as (f & <- & _).
Qed.

(** C6, as stated, fails: the directive line is neither read nor removed,
    and a [--filter] line gives no filter. *)
Lemma create_dashboard_keeps_directive_line :
  let dashboard := create_dashboard big_widget_folder in
  let filtered := create_dashboard filter_folder in
  map Position.width (tile_positions dashboard) = [1]
  ∧ map Dataset.query (Dashboard.datasets dashboard) = [big_widget_query]
  ∧ tile_filters filtered = []
  ∧ ¬ (map Position.width (tile_positions dashboard) = [6]
       ∧ map Position.height (tile_positions dashboard) = [3]
       ∧ map Dataset.query (Dashboard.datasets dashboard) = ["SELECT 1"]
       ∧ tile_filters filtered = ["City"; "State"; "Country"]).
Proof.
  split; [reflexivity|]. split; [reflexivity|]. split; [reflexivity|].
  intros (Hwidth & _ & _). vm_compute in Hwidth. discriminate Hwidth.
Qed.

(** C6, amended: [create_dashboard] does not interpret a leading comment
    line.  The query of every dataset is the whole text of its file, first
    line included; every tile has width 1 and height 3 whatever that line
    says, and is a counter: no tile filters on any column. *)
Theorem create_dashboard_reads_no_directive (dashboard_folder : Folder) :
  map Dataset.query (Dashboard.datasets (create_dashboard dashboard_folder))
  = map read (glob_sql dashboard_folder)
  ∧ Forall (λ p, Position.width p = 1 ∧ Position.height p = 3)
      (tile_positions (create_dashboard dashboard_folder))
  ∧ Forall (λ l, Widget.spec (Layout.widget l) = Some count_spec)
      (tiles (create_dashboard dashboard_folder))
  ∧ tile_filters (create_dashboard dashboard_folder) = [].
Proof.
  split; [|split; [apply widths_create_dashboard|split; [apply specs_create_dashboard|]]].
  - rewrite create_dashboard_eq. simpl. by rewrite map_map.
  - unfold tile_filters. rewrite tiles_create_dashboard, map_map. simpl.
    induction (glob_sql dashboard_folder) as [|f files IH]; [done|apply IH].
Qed.

Lemma dataset_names_create_dashboard (dashboard_folder : Folder) :
  map Dataset.name (Dashboard.datasets (create_dashboard dashboard_folder))
  = map (λ f, stem (file_name f)) (glob_sql dashboard_folder).
Proof. rewrite create_dashboard_eq. simpl. by rewrite map_map. Qed.

(** C7, as stated, fails: the tile of [4.sql], which asks for order 1,
    stays where the enumeration put it and does not follow tile [1]. *)
Lemma create_dashboard_keeps_discovery_order :
  let names := tile_names (create_dashboard order_folder) in
  names = ["0"; "1"; "2"; "3"; "4"; "5"]
  ∧ ¬ (∃ i : nat, names !! i = Some "1" ∧ names !! S i = Some "4").
Proof.
  split; [reflexivity|].
  intros (i & H1 & H4).
  do 6 (destruct i as [|i]; [vm_compute in H1, H4; congruence|]).
  vm_compute in H1. discriminate H1.
Qed.

(** C7, amended: [create_dashboard] does not sort.  Datasets and tiles come
    in the order in which the directory enumeration yields the query files,
    each named by the stem of its file. *)
Theorem create_dashboard_order (dashboard_folder : Folder) :
  tile_names (create_dashboard dashboard_folder)
  = map (λ f, stem (file_name f)) (glob_sql dashboard_folder)
  ∧ map Dataset.name (Dashboard.datasets (create_dashboard dashboard_folder))
    = map (λ f, stem (file_name f)) (glob_sql dashboard_folder).
Proof.
  split; [|apply dataset_names_create_dashboard].
  unfold tile_names. rewrite tiles_create_dashboard. by rewrite map_map.
Qed.

(** C8, as stated, fails: a missing directory, an empty one and one
    without recognised files each give a dashboard. *)
Lemma create_dashboard_of_nothing :
  create_dashboard_outcome missing_folder = Returned (empty_dashboard "nowhere")
  ∧ create_dashboard_outcome empty_folder = Returned (empty_dashboard "empty")
  ∧ create_dashboard_outcome notes_folder = Returned (empty_dashboard "notes").
Proof. repeat split; reflexivity. Qed.

(** C8, amended: building from a directory that does not exist, or that
    holds no [*.sql] file, does not fail; it returns a dashboard without
    datasets whose single page, named after the directory, has an empty
    layout. *)
Theorem create_dashboard_without_queries (dashboard_folder : Folder) :
  (entries dashboard_folder = None
   ∨ ∃ files, entries dashboard_folder = Some files
              ∧ Forall (λ f, endswith (file_name f) ".sql" = false) files) →
  create_dashboard_outcome dashboard_folder
  = Returned (empty_dashboard (folder_name dashboard_folder)).
Proof.
  intros H.
  assert (Hglob : glob_sql dashboard_folder = []).
  { unfold glob_sql. destruct H as [-> | (files & -> & Hfiles)]; [done|].
    induction Hfiles as [|f files Hf _ IH]; [done|].
    rewrite filter_cons. destruct (decide (endswith (file_name f) ".sql" = true)); [congruence|done]. }
  unfold create_dashboard_outcome. rewrite create_dashboard_eq, Hglob. done.
Qed.

Lemma create_dashboard_without_queries_witness :
  create_dashboard_outcome notes_folder = Returned (empty_dashboard "notes").
Proof.
  apply (create_dashboard_without_queries notes_folder).
  right. eexists. split; [reflexivity|].
  repeat constructor.
Defined.

(** C9, as stated, fails: the field is called [count] although the only
    column the query returns is [total]. *)
Lemma create_dashboard_field_is_count :
  let dashboard := create_dashboard total_folder in
  map Dataset.query (Dashboard.datasets dashboard) = ["SELECT 10 AS total"]
  ∧ tile_field_names dashboard = [["count"]]
  ∧ tile_field_names dashboard ≠ [["total"]].
Proof. split; [reflexivity|]. split; [reflexivity|]. vm_compute. congruence. Qed.

(** C9, amended: for every query file there is one dataset, named by the
    stem of the file, and one counter widget of the same name; the widget's
    single query selects one field that is always called [count], with
    expression [`count`], whatever the query returns. *)
Theorem create_dashboard_counters (dashboard_folder : Folder) :
  let dashboard := create_dashboard dashboard_folder in
  let stems := map (λ f, stem (file_name f)) (glob_sql dashboard_folder) in
  map Dataset.name (Dashboard.datasets dashboard) = stems
  ∧ map Layout.widget (tiles dashboard)
    = map (λ name,
        Widget.mk name
          [NamedQuery.mk "main_query"
             (Some (Query.mk name [Field.mk "count" "`count`"] (Some true)))]
          (Some count_spec)) stems
  ∧ tile_field_names dashboard = map (λ _, ["count"]) stems.
Proof.
  simpl. split; [apply dataset_names_create_dashboard|]. split.
  - rewrite tiles_create_dashboard. by rewrite !map_map.
  - unfold tile_field_names. rewrite tiles_create_dashboard. by rewrite !map_map.
Qed.

(** ** [_format_query] *)

Lemma format_query_parsed
    (Expression : Type) (sqlglot_parse : string → option (list (option Expression)))
    (sql : Expression → string) (query : string) (parsed_query : list (option Expression)) :
  sqlglot_parse query = Some parsed_query →
  _format_query Expression sqlglot_parse sql query
  = String.concat (String.append ";" LF) (format_statements Expression sql parsed_query).
Proof. intros H. unfold _format_query. by rewrite H. Qed.

(** On a parser whose only exception is the parse error: a query that the
    parser rejects is returned as it was given. *)
Lemma format_query_fallback
    (Expression : Type) (sqlglot_parse : string → option (list (option Expression)))
    (sql : Expression → string) (query : string) :
  sqlglot_parse query = None →
  _format_query Expression sqlglot_parse sql query = query.
Proof. intros H. unfold _format_query. by rewrite H. Qed.

Lemma format_query_fallback_witness :
  _format_query string paren_parse id "SELECT COUNT(* AS invalid_column"
  = "SELECT COUNT(* AS invalid_column".
Proof.
  apply (format_query_fallback string paren_parse id "SELECT COUNT(* AS invalid_column").
  reflexivity.
Defined.

(** A dataset whose query does not parse is written to its file as it is. *)
Lemma save_to_folder_keeps_unparsed
    (widgetType : WidgetSpec → option string)
    (Expression : Type) (sqlglot_parse : string → option (list (option Expression)))
    (sql : Expression → string) (dump_page : Page.t → string)
    (dashboard : Dashboard.t) (dataset : Dataset.t) :
  dataset ∈ Dashboard.datasets (_with_better_names widgetType dashboard) →
  sqlglot_parse (Dataset.query dataset) = None →
  {| file_name := String.append (Dataset.name dataset) ".sql";
     read := Dataset.query dataset |}
  ∈ (save_to_folder widgetType Expression sqlglot_parse sql dump_page dashboard).1.
Proof.
  intros Hin Hparse. unfold save_to_folder. simpl.
  apply elem_of_app. left. apply list_elem_of_fmap. exists dataset.
  split; [|done]. unfold _format_query. by rewrite Hparse.
Qed.

(** ** [deploy_dashboard] *)

(** C5: with both identifiers, or with neither, [deploy_dashboard] raises
    the [ValueError] of its check and has called nothing; with a display
    name only it makes the one [create] call, with a dashboard id only the
    one [update] call, and its outcome is the outcome of that call. *)
Theorem deploy_dashboard_identifiers
    (SDKDashboard : Type) (lakeview : LakeviewCall → outcome SDKDashboard)
    (dumps : Dashboard.t → string)
    (lakeview_dashboard : Dashboard.t) (display_name dashboard_id : option string) :
  deploy_dashboard SDKDashboard lakeview dumps lakeview_dashboard display_name dashboard_id
  = match display_name, dashboard_id with
    | Some name, None =>
        ([LakeviewCreate name (dumps lakeview_dashboard)],
         lakeview (LakeviewCreate name (dumps lakeview_dashboard)))
    | None, Some id =>
        ([LakeviewUpdate id (dumps lakeview_dashboard)],
         lakeview (LakeviewUpdate id (dumps lakeview_dashboard)))
    | Some _, Some _ | None, None =>
        ([], Raised (ValueError "Give either display_name or dashboard_id."))
    end.
Proof. destruct display_name, dashboard_id; reflexivity. Qed.

(** ** The renaming walk *)

(** Run the monadic steps at the head of a walk. *)
Ltac run_walk :=
  repeat (progress (unfold bind, ret, for_some, names_get, names_set; simpl)).

Lemma for_each_ret {A : Type} (items : list A) (better_names : gmap string string) :
  for_each ret items better_names = (items, better_names).
Proof.
  induction items as [|item rest IH]; [done|].
  simpl. unfold bind, ret in *. simpl. by rewrite IH.
Qed.

Lemma replace_names_Query_eq (node : Query.t) (better_names : gmap string string) :
  _replace_names_Query node better_names
  = (Query.mk (default (Query.dataset_name node) (better_names !! Query.dataset_name node))
       (Query.fields node) (Query.disaggregated node),
     better_names).
Proof.
  unfold _replace_names_Query, bind, _replace_names_Field.
  by rewrite for_each_ret.
Qed.

Lemma replace_names_NamedQuery_Some
    (name : string) (query : Query.t) (better_names : gmap string string) :
  _replace_names_NamedQuery (NamedQuery.mk name (Some query)) better_names
  = let query' := (_replace_names_Query query better_names).1 in
    if String.prefix "dashboards/" name
    then (NamedQuery.mk (new_name query') (Some query'),
          <[name := new_name query']> better_names)
    else (NamedQuery.mk (default name (better_names !! name)) (Some query'),
          better_names).
Proof.
  unfold _replace_names_NamedQuery. run_walk.
  rewrite replace_names_Query_eq. simpl.
  destruct (String.prefix "dashboards/" name); simpl; [|done].
  by rewrite lookup_insert_eq.
Qed.

(** A named query that has no query is left as it is: no lookup is made. *)
Lemma replace_names_NamedQuery_None (name : string) (better_names : gmap string string) :
  _replace_names_NamedQuery (NamedQuery.mk name None) better_names
  = (NamedQuery.mk name None, better_names).
Proof. reflexivity. Qed.

(** C3, as stated, fails: a named query without a query keeps its name even
    though the map holds a better one. *)
Lemma replace_names_NamedQuery_skips_lookup :
  let node := NamedQuery.mk "main_query" None in
  let better_names : gmap string string := {["main_query" := "better"]} in
  let (node', better_names') := _replace_names_NamedQuery node better_names in
  ¬ NamedQuery_renamed node better_names node' better_names'.
Proof.
  simpl. unfold NamedQuery_renamed. simpl. intros [H _]. vm_compute in H. discriminate H.
Qed.

(** C3, amended: for every named query that has a query, after the query's
    dataset name has been looked up in the map: a name that starts with
    [dashboards/] is replaced by that dataset name joined by underscores
    with the names of all the query's fields, and the map the walk goes on
    with binds the old name to the new one; any other name is replaced by
    its plain lookup and the map is unchanged. *)
Theorem replace_names_NamedQuery_spec
    (node : NamedQuery.t) (query : Query.t) (better_names : gmap string string) :
  NamedQuery.query node = Some query →
  let (node', better_names') := _replace_names_NamedQuery node better_names in
  NamedQuery.query node' = Some (_replace_names_Query query better_names).1
  ∧ NamedQuery_renamed node better_names node' better_names'.
Proof.
  intros Hquery. destruct node as [name q]. simpl in Hquery. subst q.
  rewrite replace_names_NamedQuery_Some. unfold NamedQuery_renamed. simpl.
  destruct (String.prefix "dashboards/" name); simpl; eauto.
Qed.

Lemma replace_names_NamedQuery_spec_witness :
  let (node', better_names') := _replace_names_NamedQuery remote_named_query ∅ in
  NamedQuery.query node'
  = Some (_replace_names_Query (Query.mk "counter" [Field.mk "count" "`count`"] None) ∅).1
  ∧ NamedQuery_renamed remote_named_query ∅ node' better_names'.
Proof.
  apply (replace_names_NamedQuery_spec remote_named_query
           (Query.mk "counter" [Field.mk "count" "`count`"] None) ∅).
  reflexivity.
Defined.

(** The example of the specification: dataset [counter] and one field
    [count] give [counter_count]. *)
Lemma replace_names_NamedQuery_counter_count :
  NamedQuery.name (_replace_names_NamedQuery remote_named_query ∅).1 = "counter_count".
Proof. reflexivity. Qed.

(** *** The display names a dashboard declares *)

Lemma display_names_fold
    (entries : list (string * option string)) (better_names : gmap string string) (name : string) :
  fold_left (λ names e, add_display_name names e.1 e.2) entries better_names !! name
  = match last_display name entries with
    | Some found => Some found
    | None => better_names !! name
    end.
Proof.
  revert better_names. induction entries as [|[name' display_name] rest IH];
    intros better_names; simpl; [done|].
  rewrite IH. destruct (last_display name rest); [done|].
  unfold add_display_name.
  destruct (decide (name' = name)) as [->|Hne], display_name as [d|]; simpl;
    rewrite ?lookup_insert_eq, ?lookup_insert_ne; done.
Qed.

Lemma fold_left_over_map {A B C : Type} (f : A → C → A) (g : B → C) (l : list B) (a : A) :
  fold_left f (map g l) a = fold_left (λ a x, f a (g x)) l a.
Proof. revert a. induction l as [|x l IH]; intros a; simpl; [done|apply IH]. Qed.

Lemma display_names_lookup (dashboard : Dashboard.t) (name : string) :
  display_names dashboard !! name = last_display name (name_entries dashboard).
Proof.
  unfold display_names, name_entries.
  rewrite <- (fold_left_over_map (λ names e, add_display_name names e.1 e.2)
                (λ page, (Page.name page, Page.display_name page))).
  rewrite <- (fold_left_over_map (λ names e, add_display_name names e.1 e.2)
                (λ dataset, (Dataset.name dataset, Dataset.display_name dataset))).
  rewrite <- fold_left_app, display_names_fold, lookup_empty.
  by destruct (last_display _ _).
Qed.

Lemma last_display_elem
    (name found : string) (entries : list (string * option string)) :
  last_display name entries = Some found → (name, Some found) ∈ entries.
Proof.
  induction entries as [|[name' display_name] rest IH]; simpl; [done|].
  destruct (last_display name rest) as [found'|].
  - intros [= ->]. right. by apply IH.
  - destruct (decide (name' = name)) as [->|]; [|done].
    intros ->. left.
Qed.

Lemma last_display_is_Some
    (name display_name : string) (entries : list (string * option string)) :
  (name, Some display_name) ∈ entries → is_Some (last_display name entries).
Proof.
  induction entries as [|[name' display_name'] rest IH]; simpl.
  - by intros ?%elem_of_nil.
  - intros [[= <- <-]|Hin]%elem_of_cons.
    + destruct (last_display name rest); [done|]. by rewrite decide_True.
    + destruct (IH Hin) as [found ->]. done.
Qed.

Lemma last_display_app (name : string) (before rest : list (string * option string)) :
  last_display name (before ++ rest)
  = match last_display name rest with
    | Some found => Some found
    | None => last_display name before
    end.
Proof.
  induction before as [|[name' display_name] before IH]; simpl.
  - by destruct (last_display name rest).
  - rewrite IH. by destruct (last_display name rest).
Qed.

(** Renaming every entry by the map the entries build gives entries whose
    map sends each of its keys to itself. *)
Lemma renamed_entries_fixed (whole before rest : list (string * option string)) (key found : string) :
  whole = before ++ rest →
  last_display key
    (map (λ e, (default e.1 (last_display e.1 whole), e.2)) rest) = Some found →
  found = key.
Proof.
  revert before. induction rest as [|[name display_name] rest IH]; intros before Hwhole; simpl; [done|].
  destruct (last_display key (map _ rest)) as [found'|] eqn:Hrest.
  - intros [= ->]. apply (IH (before ++ [(name, display_name)])); [|done].
    by rewrite <- app_assoc.
  - destruct (decide (default name (last_display name whole) = key)) as [Hkey|]; [|done].
    intros ->.
    assert (Hlast : last_display name whole
                    = match last_display name rest with
                      | Some w => Some w
                      | None => Some found
                      end).
    { rewrite Hwhole, last_display_app. simpl.
      destruct (last_display name rest); [done|]. by rewrite decide_True. }
    destruct (last_display name rest) as [w|] eqn:Hw.
    + exfalso. apply last_display_elem in Hw.
      assert (Hin : (key, Some w)
                    ∈ map (λ e, (default e.1 (last_display e.1 whole), e.2)) rest).
      { apply list_elem_of_fmap. exists (name, Some w). simpl. by rewrite Hkey. }
      apply last_display_is_Some in Hin. rewrite Hrest in Hin. by destruct Hin.
    + rewrite Hlast in Hkey. done.
Qed.

(** *** Equations of the walk *)

Lemma bind_eq {A B : Type} (c : Renaming A) (k : A → Renaming B)
    (better_names : gmap string string) :
  bind c k better_names = k (c better_names).1 (c better_names).2.
Proof. unfold bind. by destruct (c better_names). Qed.

Lemma for_each_cons {A : Type} (f : A → Renaming A) (item : A) (rest : list A)
    (better_names : gmap string string) :
  for_each f (item :: rest) better_names
  = ((f item better_names).1 :: (for_each f rest (f item better_names).2).1,
     (for_each f rest (f item better_names).2).2).
Proof. simpl. by rewrite !bind_eq. Qed.

Lemma for_some_eq {A : Type} (f : A → Renaming A) (value : option A)
    (better_names : gmap string string) :
  for_some f value better_names
  = match value with
    | Some v => (Some (f v better_names).1, (f v better_names).2)
    | None => (None, better_names)
    end.
Proof. destruct value; simpl; [|done]. by rewrite bind_eq. Qed.

Lemma replace_names_Dataset_eq (node : Dataset.t) (better_names : gmap string string) :
  _replace_names_Dataset node better_names
  = (Dataset.mk (default (Dataset.name node) (better_names !! Dataset.name node))
       (Dataset.display_name node) (Dataset.query node),
     better_names).
Proof. reflexivity. Qed.

Lemma replace_names_ControlFieldEncoding_eq
    (node : ControlFieldEncoding.t) (better_names : gmap string string) :
  _replace_names_ControlFieldEncoding node better_names
  = (ControlFieldEncoding.mk (ControlFieldEncoding.field_name node)
       (default (ControlFieldEncoding.query_name node)
          (better_names !! ControlFieldEncoding.query_name node))
       (ControlFieldEncoding.display_name node),
     better_names).
Proof. reflexivity. Qed.

(** A walk that only reads the map hands it on unchanged. *)
Lemma for_each_reads {A : Type} (f : A → Renaming A) (items : list A)
    (better_names : gmap string string) :
  (∀ item, (f item better_names).2 = better_names) →
  (for_each f items better_names).2 = better_names.
Proof.
  intros Hf. induction items as [|item rest IH]; [done|].
  rewrite for_each_cons. simpl. by rewrite Hf.
Qed.

Lemma replace_names_WidgetSpec_reads (node : WidgetSpec) (better_names : gmap string string) :
  (_replace_names_WidgetSpec node better_names).2 = better_names.
Proof.
  destruct node as [spec|kind fields]; simpl; [done|].
  rewrite bind_eq. simpl. by apply for_each_reads.
Qed.

Section Walk.

Variable widgetType : WidgetSpec → option string.

Lemma replace_names_Widget_eq (node : Widget.t) (better_names : gmap string string) :
  _replace_names_Widget widgetType node better_names
  = let queries := for_each _replace_names_NamedQuery (Widget.queries node) better_names in
    let spec := for_some _replace_names_WidgetSpec (Widget.spec node) queries.2 in
    (Widget.mk
       match spec.1 with
       | Some spec => default (Widget.name node) (widgetType spec)
       | None => Widget.name node
       end
       queries.1 spec.1,
     spec.2).
Proof. unfold _replace_names_Widget. by rewrite !bind_eq. Qed.

Lemma replace_names_Layout_eq (node : Layout.t) (better_names : gmap string string) :
  _replace_names_Layout widgetType node better_names
  = let widget := _replace_names_Widget widgetType (Layout.widget node) better_names in
    (Layout.mk widget.1 (Layout.position node), widget.2).
Proof. unfold _replace_names_Layout. by rewrite !bind_eq. Qed.

Lemma replace_names_Page_eq (node : Page.t) (better_names : gmap string string) :
  _replace_names_Page widgetType node better_names
  = let layout := for_each (_replace_names_Layout widgetType) (Page.layout node) better_names in
    (Page.mk (default (Page.name node) (layout.2 !! Page.name node))
       (Page.display_name node) layout.1,
     layout.2).
Proof. unfold _replace_names_Page. by rewrite !bind_eq. Qed.

Lemma replace_names_eq (node : Dashboard.t) (better_names : gmap string string) :
  _replace_names widgetType node better_names
  = let datasets := for_each _replace_names_Dataset (Dashboard.datasets node) better_names in
    let pages := for_each (_replace_names_Page widgetType) (Dashboard.pages node) datasets.2 in
    (Dashboard.mk datasets.1 pages.1, pages.2).
Proof. unfold _replace_names. by rewrite !bind_eq. Qed.

End Walk.

(** *** A walk with a map that fixes its keys *)

Lemma fixes_default (better_names : gmap string string) (name : string) :
  fixes better_names → default name (better_names !! name) = name.
Proof.
  intros Hfix. destruct (better_names !! name) as [found|] eqn:Hfound; [|done].
  simpl. by apply (Hfix name).
Qed.

Lemma for_each_fixed {A : Type} (f : A → Renaming A) (P : A → Prop)
    (items : list A) (better_names : gmap string string) :
  (∀ item, P item → f item better_names = (item, better_names)) →
  Forall P items →
  for_each f items better_names = (items, better_names).
Proof.
  intros Hf. induction 1 as [|item rest Hitem _ IH]; [done|].
  rewrite for_each_cons, (Hf item Hitem). simpl. by rewrite IH.
Qed.

Section SecondPass.

Variable widgetType : WidgetSpec → option string.
Variable better_names : gmap string string.
Hypothesis Hfix : fixes better_names.

Lemma replace_names_Query_fixed (node : Query.t) :
  _replace_names_Query node better_names = (node, better_names).
Proof.
  rewrite replace_names_Query_eq, fixes_default by done. by destruct node.
Qed.

Lemma replace_names_NamedQuery_fixed (node : NamedQuery.t) :
  settled_NamedQuery node →
  _replace_names_NamedQuery node better_names = (node, better_names).
Proof.
  destruct node as [name [query|]]; [|done].
  unfold settled_NamedQuery, plain, reserved. simpl. intros Hplain.
  rewrite replace_names_NamedQuery_Some, replace_names_Query_fixed, Hplain. simpl.
  by rewrite fixes_default.
Qed.

Lemma replace_names_WidgetSpec_fixed (node : WidgetSpec) :
  _replace_names_WidgetSpec node better_names = (node, better_names).
Proof.
  destruct node as [spec|kind fields]; simpl; [done|].
  rewrite bind_eq, (for_each_fixed _ (λ _, True)); [done| |by apply Forall_true].
  intros [field_name query_name display_name] _.
  rewrite replace_names_ControlFieldEncoding_eq. simpl. by rewrite fixes_default.
Qed.

Lemma replace_names_Widget_fixed (node : Widget.t) :
  settled_Widget widgetType node →
  _replace_names_Widget widgetType node better_names = (node, better_names).
Proof.
  destruct node as [name queries spec]. intros [Hqueries Hname]. simpl in *.
  rewrite replace_names_Widget_eq. simpl.
  rewrite (for_each_fixed _ settled_NamedQuery);
    [|apply replace_names_NamedQuery_fixed|done].
  simpl. rewrite for_some_eq.
  destruct spec as [spec|]; [|done].
  rewrite replace_names_WidgetSpec_fixed. simpl. by rewrite Hname.
Qed.

Lemma replace_names_Page_fixed (node : Page.t) :
  settled_Page widgetType node →
  _replace_names_Page widgetType node better_names = (node, better_names).
Proof.
  destruct node as [name display_name layout]. unfold settled_Page. simpl. intros Hlayout.
  rewrite replace_names_Page_eq. simpl.
  rewrite (for_each_fixed _ (λ l, settled_Widget widgetType (Layout.widget l)));
    [| |done].
  - simpl. by rewrite fixes_default.
  - intros [widget position] Hwidget. simpl in Hwidget.
    rewrite replace_names_Layout_eq. simpl.
    by rewrite replace_names_Widget_fixed.
Qed.

Lemma replace_names_fixed (node : Dashboard.t) :
  settled widgetType node →
  _replace_names widgetType node better_names = (node, better_names).
Proof.
  destruct node as [datasets pages]. unfold settled. simpl. intros Hpages.
  rewrite replace_names_eq. simpl.
  rewrite (for_each_fixed _ (λ _, True)); [| |by apply Forall_true].
  - simpl. by rewrite (for_each_fixed _ (settled_Page widgetType));
      [|apply replace_names_Page_fixed|].
  - intros [name display_name query] _.
    rewrite replace_names_Dataset_eq. simpl. by rewrite fixes_default.
Qed.

End SecondPass.

(** *** Normalizing twice *)

(** C10, as stated, fails: a dataset whose display name starts with
    [dashboards/] hands that name to the named query in the first pass, and
    the second pass takes it for a remote-generated name and replaces it. *)
Lemma with_better_names_not_idempotent :
  _with_better_names lakeview_widgetType (_with_better_names lakeview_widgetType clash_dashboard)
  ≠ _with_better_names lakeview_widgetType clash_dashboard.
Proof. vm_compute. intros H. discriminate H. Qed.

(** On the exported dashboard the first pass is no identity: the counter,
    the filter and the filter's field encoding all get readable names. *)
Lemma with_better_names_exported :
  let dashboard := _with_better_names lakeview_widgetType exported_dashboard in
  map Dataset.name (Dashboard.datasets dashboard) = ["counter"]
  ∧ map Page.name (Dashboard.pages dashboard) = ["Counters"]
  ∧ tile_names dashboard = ["counter"; "filter-single-select"]
  ∧ map (λ l, map NamedQuery.name (Widget.queries (Layout.widget l))) (tiles dashboard)
    = [["counter_count"]; ["counter_count"]]
  ∧ map (λ l, Widget.spec (Layout.widget l)) (tiles dashboard)
    = [Some count_spec;
       Some (SpecControl "filter-single-select"
               [ControlFieldEncoding.mk "count" "counter_count" (Some "count")])].
Proof. vm_compute. done. Qed.

(** ** Deploying and fetching back *)

Lemma for_each_results {A : Type} (f : A → Renaming A) (items results : list A)
    (better_names : gmap string string) :
  Forall2 (λ item result, f item better_names = (result, better_names)) items results →
  for_each f items better_names = (results, better_names).
Proof.
  induction 1 as [|item result items results Hitem _ IH]; [done|].
  rewrite for_each_cons, Hitem. simpl. by rewrite IH.
Qed.



(** *** The map of a dashboard whose names were reassigned *)

Section Assigned.

Variable assigned : string → string.
Hypothesis assigned_inj : ∀ a b, assigned a = assigned b → a = b.



Lemma last_display_own (entries : list (string * option string)) (key found : string) :
  own_names entries → last_display key entries = Some found → found = key.
Proof.
  intros Hown Hfound%last_display_elem.
  unfold own_names in Hown. rewrite Forall_forall in Hown. specialize (Hown _ Hfound). simpl in Hown. congruence.
Qed.

End Assigned.

(** *** The built dashboard and its copy *)

Lemma name_entries_create_dashboard (dashboard_folder : Folder) :
  name_entries (create_dashboard dashboard_folder)
  = map (λ f, (stem (file_name f), Some (stem (file_name f)))) (glob_sql dashboard_folder)
    ++ [(folder_name dashboard_folder, Some (folder_name dashboard_folder))].
Proof. rewrite create_dashboard_eq. unfold name_entries. simpl. by rewrite map_map. Qed.

Lemma own_names_create_dashboard (dashboard_folder : Folder) :
  own_names (name_entries (create_dashboard dashboard_folder)).
Proof.
  rewrite name_entries_create_dashboard. apply Forall_app. split.
  - apply Forall_forall. intros e He. apply list_elem_of_fmap in He.
    by destruct He as (f & -> & _).
  - by repeat constructor.
Qed.


Section Fetched.

Variable widgetType : WidgetSpec → option string.
Variable assigned : string → string.
Hypothesis assigned_inj : ∀ a b, assigned a = assigned b → a = b.
Hypothesis assigned_main_query : ∀ name, assigned name = "main_query" → name = "main_query".



End Fetched.


(** * Further properties *)

(** ** What the walk keeps *)

Lemma for_each_map_kept {A B : Type} (f : A → Renaming A) (g : A → B) (items : list A) :
  (∀ item names, g (f item names).1 = g item) →
  ∀ names, map g (for_each f items names).1 = map g items.
Proof.
  intros Hf. induction items as [|item rest IH]; intros names; [done|].
  rewrite for_each_cons. simpl. by rewrite Hf, IH.
Qed.

Lemma erase_replace_names_NamedQuery (node : NamedQuery.t) (names : gmap string string) :
  erase_NamedQuery (_replace_names_NamedQuery node names).1 = erase_NamedQuery node.
Proof.
  destruct node as [name [query|]]; [|done].
  rewrite replace_names_NamedQuery_Some, replace_names_Query_eq. simpl.
  by destruct (String.prefix "dashboards/" name).
Qed.

Lemma erase_replace_names_WidgetSpec (node : WidgetSpec) (names : gmap string string) :
  erase_WidgetSpec (_replace_names_WidgetSpec node names).1 = erase_WidgetSpec node.
Proof.
  destruct node as [spec|kind fields]; simpl; [done|].
  rewrite bind_eq. simpl. f_equal.
  by apply for_each_map_kept.
Qed.

Section Kept.

Variable widgetType : WidgetSpec → option string.

Lemma erase_replace_names_Widget (node : Widget.t) (names : gmap string string) :
  erase_Widget (_replace_names_Widget widgetType node names).1 = erase_Widget node.
Proof.
  rewrite replace_names_Widget_eq. unfold erase_Widget. simpl. f_equal.
  - apply for_each_map_kept, erase_replace_names_NamedQuery.
  - rewrite for_some_eq. destruct (Widget.spec node) as [spec|]; simpl; [|done].
    by rewrite erase_replace_names_WidgetSpec.
Qed.

Lemma erase_replace_names_Page (node : Page.t) (names : gmap string string) :
  erase_Page (_replace_names_Page widgetType node names).1 = erase_Page node.
Proof.
  rewrite replace_names_Page_eq. unfold erase_Page. simpl. f_equal.
  apply for_each_map_kept. intros l names'.
  rewrite replace_names_Layout_eq. unfold erase_Layout. simpl.
  by rewrite erase_replace_names_Widget.
Qed.

Lemma erase_replace_names (node : Dashboard.t) (names : gmap string string) :
  erase_names (_replace_names widgetType node names).1 = erase_names node.
Proof.
  rewrite replace_names_eq. unfold erase_names. simpl. f_equal.
  - by apply for_each_map_kept.
  - apply for_each_map_kept, erase_replace_names_Page.
Qed.

(** X1: names apart, a normalized dashboard is the dashboard it was made
    from: display names, SQL texts, fields, positions, the other content of
    specs and the length of every list are kept. *)
Theorem with_better_names_keeps_content (dashboard : Dashboard.t) :
  erase_names (_with_better_names widgetType dashboard) = erase_names dashboard.
Proof. apply erase_replace_names. Qed.

End Kept.

(** ** What the walk does to the map *)

Lemma for_each_state {A : Type} (f : A → Renaming A) (I : gmap string string → Prop)
    (items : list A) :
  (∀ item names, I names → I (f item names).2) →
  ∀ names, I names → I (for_each f items names).2.
Proof.
  intros Hf. induction items as [|item rest IH]; intros names Hnames; [done|].
  rewrite for_each_cons. simpl. by apply IH, Hf.
Qed.

Lemma for_each_map_state {A B : Type} (f : A → Renaming A) (I : gmap string string → Prop)
    (P : A → Prop) (g : A → B) (h : A → B) (items : list A) :
  (∀ item names, I names → I (f item names).2) →
  (∀ item names, P item → I names → g (f item names).1 = h item) →
  ∀ names, Forall P items → I names →
    map g (for_each f items names).1 = map h items.
Proof.
  intros Hstate Hf. induction items as [|item rest IH]; intros names Hitems Hnames; [done|].
  inversion Hitems as [|? ? Hitem Hrest]; subst.
  rewrite for_each_cons. simpl. rewrite (Hf _ _ Hitem Hnames). f_equal.
  by apply IH, Hstate.
Qed.

Lemma agree_on_plain_refl (m0 : gmap string string) : agree_on_plain m0 m0.
Proof. by intros key _. Qed.

Lemma better_name_agree (m0 names : gmap string string) (name : string) :
  agree_on_plain m0 names → plain name → better_name names name = better_name m0 name.
Proof. intros Hagree Hplain. unfold better_name. by rewrite (Hagree name Hplain). Qed.

Lemma replace_names_NamedQuery_agree
    (m0 : gmap string string) (node : NamedQuery.t) (names : gmap string string) :
  agree_on_plain m0 names →
  agree_on_plain m0 (_replace_names_NamedQuery node names).2.
Proof.
  intros Hagree. destruct node as [name [query|]]; [|done].
  rewrite replace_names_NamedQuery_Some. simpl.
  destruct (String.prefix "dashboards/" name) eqn:Hname; simpl; [|done].
  intros key Hplain. rewrite lookup_insert_ne; [by apply Hagree|].
  intros ->. unfold plain, reserved in Hplain. congruence.
Qed.

Section State.

Variable widgetType : WidgetSpec → option string.
Variable m0 : gmap string string.

Lemma replace_names_Widget_agree (node : Widget.t) (names : gmap string string) :
  agree_on_plain m0 names →
  agree_on_plain m0 (_replace_names_Widget widgetType node names).2.
Proof.
  intros Hagree. rewrite replace_names_Widget_eq. simpl. rewrite for_some_eq.
  assert (Hqueries : agree_on_plain m0
            (for_each _replace_names_NamedQuery (Widget.queries node) names).2).
  { apply for_each_state; [|done]. intros nq names'.
    apply replace_names_NamedQuery_agree. }
  destruct (Widget.spec node) as [spec|]; simpl; [|done].
  by rewrite replace_names_WidgetSpec_reads.
Qed.

Lemma replace_names_Layout_agree (node : Layout.t) (names : gmap string string) :
  agree_on_plain m0 names →
  agree_on_plain m0 (_replace_names_Layout widgetType node names).2.
Proof.
  intros Hagree. rewrite replace_names_Layout_eq. simpl.
  by apply replace_names_Widget_agree.
Qed.

Lemma replace_names_Page_agree (node : Page.t) (names : gmap string string) :
  agree_on_plain m0 names →
  agree_on_plain m0 (_replace_names_Page widgetType node names).2.
Proof.
  intros Hagree. rewrite replace_names_Page_eq. simpl.
  apply for_each_state; [|done]. intros l names'. apply replace_names_Layout_agree.
Qed.

Lemma replace_names_Dataset_reads (node : Dataset.t) (names : gmap string string) :
  (_replace_names_Dataset node names).2 = names.
Proof. reflexivity. Qed.

Lemma replace_names_agree (node : Dashboard.t) (names : gmap string string) :
  agree_on_plain m0 names →
  agree_on_plain m0 (_replace_names widgetType node names).2.
Proof.
  intros Hagree. rewrite replace_names_eq. simpl.
  apply for_each_state; [intros p names'; apply replace_names_Page_agree|].
  rewrite for_each_reads; [done|]. intros d. apply replace_names_Dataset_reads.
Qed.

End State.

(** X2: the walk only ever writes keys that start with [dashboards/]: from
    whatever map it starts, the map it ends with holds the same for every
    other name. *)
Theorem replace_names_keeps_plain_keys
    (widgetType : WidgetSpec → option string) (dashboard : Dashboard.t)
    (better_names : gmap string string) (key : string) :
  String.prefix "dashboards/" key = false →
  (_replace_names widgetType dashboard better_names).2 !! key = better_names !! key.
Proof.
  intros Hkey.
  apply (replace_names_agree widgetType better_names dashboard better_names
           (agree_on_plain_refl better_names)).
  exact Hkey.
Qed.

Lemma replace_names_keeps_plain_keys_witness :
  (_replace_names lakeview_widgetType exported_dashboard
     (display_names exported_dashboard)).2 !! "01eeb07a"
  = display_names exported_dashboard !! "01eeb07a".
Proof.
  apply (replace_names_keeps_plain_keys lakeview_widgetType exported_dashboard
           (display_names exported_dashboard) "01eeb07a").
  reflexivity.
Defined.

(** ** The names datasets and pages get *)

Lemma for_each_pure {A : Type} (f : A → Renaming A) (g : A → A) (items : list A)
    (names : gmap string string) :
  (∀ item, f item names = (g item, names)) →
  for_each f items names = (map g items, names).
Proof.
  intros Hf. induction items as [|item rest IH]; [done|].
  rewrite for_each_cons, Hf. simpl. by rewrite IH.
Qed.

Lemma replace_names_datasets
    (widgetType : WidgetSpec → option string) (node : Dashboard.t)
    (names : gmap string string) :
  map Dataset.name (Dashboard.datasets (_replace_names widgetType node names).1)
  = map (λ d, better_name names (Dataset.name d)) (Dashboard.datasets node).
Proof.
  rewrite replace_names_eq. simpl.
  rewrite (for_each_pure _
             (λ d, Dataset.mk (better_name names (Dataset.name d))
                     (Dataset.display_name d) (Dataset.query d))); [|done].
  simpl. by rewrite map_map.
Qed.

Lemma replace_names_pages
    (widgetType : WidgetSpec → option string) (node : Dashboard.t)
    (names : gmap string string) :
  Forall (λ page, plain (Page.name page)) (Dashboard.pages node) →
  map Page.name (Dashboard.pages (_replace_names widgetType node names).1)
  = map (λ p, better_name names (Page.name p)) (Dashboard.pages node).
Proof.
  intros Hplain. rewrite replace_names_eq. simpl.
  apply (for_each_map_state _ (agree_on_plain names) (λ page, plain (Page.name page)));
    [| |done|].
  - intros p names'. apply replace_names_Page_agree.
  - intros p names' Hp Hagree. rewrite replace_names_Page_eq. simpl.
    apply (better_name_agree names); [|done].
    apply for_each_state; [|done]. intros l names''. apply replace_names_Layout_agree.
  - rewrite for_each_reads; [apply agree_on_plain_refl|].
    intros d. apply replace_names_Dataset_reads.
Qed.

(** X3: every dataset is renamed to the display name that the last entry
    of its name declares, pages coming after datasets, and keeps its name
    when no dataset or page of that name declares one. *)
Theorem with_better_names_dataset_names
    (widgetType : WidgetSpec → option string) (dashboard : Dashboard.t) :
  map Dataset.name (Dashboard.datasets (_with_better_names widgetType dashboard))
  = map (λ d, default (Dataset.name d)
                (last_display (Dataset.name d) (name_entries dashboard)))
      (Dashboard.datasets dashboard).
Proof.
  unfold _with_better_names. rewrite replace_names_datasets.
  apply map_ext. intros d. unfold better_name. by rewrite display_names_lookup.
Qed.

Lemma last_display_NoDup
    (entries : list (string * option string)) (name : string) (display_name : option string) :
  NoDup (map fst entries) → (name, display_name) ∈ entries →
  last_display name entries = display_name.
Proof.
  induction entries as [|[name' display_name'] rest IH]; simpl.
  - by intros _ ?%elem_of_nil.
  - intros Hnodup Hin. apply NoDup_cons in Hnodup. destruct Hnodup as [Hfresh Hnodup].
    apply elem_of_cons in Hin. destruct Hin as [[= <- <-]|Hin].
    + destruct (last_display name rest) as [found|] eqn:Hfound.
      * apply last_display_elem in Hfound. destruct Hfresh.
        apply list_elem_of_fmap. by exists (name, Some found).
      * by rewrite decide_True.
    + rewrite (IH Hnodup Hin). destruct display_name as [d|]; [done|].
      rewrite decide_False; [done|]. intros ->. destruct Hfresh.
      apply list_elem_of_fmap. by exists (name, None).
Qed.

(** X4: when the names of the datasets and pages of a dashboard are
    pairwise distinct and no page name starts with [dashboards/], every
    dataset and every page that declares a display name is renamed to it,
    and the others keep their name. *)
Theorem with_better_names_takes_display_names
    (widgetType : WidgetSpec → option string) (dashboard : Dashboard.t) :
  NoDup (map fst (name_entries dashboard)) →
  Forall (λ page, plain (Page.name page)) (Dashboard.pages dashboard) →
  map Dataset.name (Dashboard.datasets (_with_better_names widgetType dashboard))
  = map (λ d, default (Dataset.name d) (Dataset.display_name d))
      (Dashboard.datasets dashboard)
  ∧ map Page.name (Dashboard.pages (_with_better_names widgetType dashboard))
    = map (λ p, default (Page.name p) (Page.display_name p)) (Dashboard.pages dashboard).
Proof.
  intros Hnodup Hplain. unfold _with_better_names.
  rewrite replace_names_datasets, replace_names_pages by done.
  split; apply map_ext_in; intros x Hx%list_elem_of_In;
    unfold better_name; rewrite display_names_lookup.
  - rewrite (last_display_NoDup _ _ (Dataset.display_name x) Hnodup); [done|].
    unfold name_entries. apply elem_of_app. left.
    apply list_elem_of_fmap. by exists x.
  - rewrite (last_display_NoDup _ _ (Page.display_name x) Hnodup); [done|].
    unfold name_entries. apply elem_of_app. right.
    apply list_elem_of_fmap. by exists x.
Qed.

Lemma with_better_names_takes_display_names_witness :
  map Dataset.name (Dashboard.datasets (_with_better_names lakeview_widgetType exported_dashboard))
  = map (λ d, default (Dataset.name d) (Dataset.display_name d))
      (Dashboard.datasets exported_dashboard)
  ∧ map Page.name (Dashboard.pages (_with_better_names lakeview_widgetType exported_dashboard))
    = map (λ p, default (Page.name p) (Page.display_name p))
        (Dashboard.pages exported_dashboard).
Proof.
  apply (with_better_names_takes_display_names lakeview_widgetType exported_dashboard).
  - apply (bool_decide_unpack (NoDup (map fst (name_entries exported_dashboard)))).
    vm_compute. exact I.
  - repeat constructor.
Defined.

(** ** References to datasets *)

Lemma tiles_map {B : Type} (g : Layout.t → B) (dashboard : Dashboard.t) :
  map g (tiles dashboard)
  = concat (map (λ page, map g (Page.layout page)) (Dashboard.pages dashboard)).
Proof. unfold tiles. by rewrite concat_map, map_map. Qed.

Section References.

Variable widgetType : WidgetSpec → option string.
Variable m0 : gmap string string.

Lemma replace_names_NamedQuery_reference (node : NamedQuery.t) (names : gmap string string) :
  plain_NamedQuery node → agree_on_plain m0 names →
  query_dataset_name (_replace_names_NamedQuery node names).1
  = better_name m0 <$> query_dataset_name node.
Proof.
  destruct node as [name [query|]]; [|done].
  unfold plain_NamedQuery, query_dataset_name. simpl. intros Hplain Hagree.
  rewrite replace_names_NamedQuery_Some, replace_names_Query_eq. simpl.
  fold (better_name names (Query.dataset_name query)).
  rewrite (better_name_agree m0) by done.
  by destruct (String.prefix "dashboards/" name).
Qed.

Lemma replace_names_Layout_references (node : Layout.t) (names : gmap string string) :
  plain_Layout node → agree_on_plain m0 names →
  map query_dataset_name
    (Widget.queries (Layout.widget (_replace_names_Layout widgetType node names).1))
  = map (fmap (better_name m0))
      (map query_dataset_name (Widget.queries (Layout.widget node))).
Proof.
  intros Hplain Hagree. rewrite replace_names_Layout_eq, replace_names_Widget_eq. simpl.
  rewrite map_map.
  apply (for_each_map_state _ (agree_on_plain m0) plain_NamedQuery); [| |done|done].
  - intros nq names'. apply replace_names_NamedQuery_agree.
  - intros nq names'. apply replace_names_NamedQuery_reference.
Qed.

Lemma replace_names_references (node : Dashboard.t) :
  Forall (λ page, Forall plain_Layout (Page.layout page)) (Dashboard.pages node) →
  tile_dataset_names (_replace_names widgetType node m0).1
  = map (map (fmap (better_name m0))) (tile_dataset_names node).
Proof.
  intros Hplain. unfold tile_dataset_names. rewrite map_map, !tiles_map. f_equal.
  rewrite replace_names_eq. simpl.
  apply (for_each_map_state _ (agree_on_plain m0)
           (λ page, Forall plain_Layout (Page.layout page))); [| |done|].
  - intros p names'. apply replace_names_Page_agree.
  - intros p names' Hp Hagree. rewrite replace_names_Page_eq. simpl.
    apply (for_each_map_state _ (agree_on_plain m0) plain_Layout); [| |done|done].
    + intros l names''. apply replace_names_Layout_agree.
    + intros l names''. apply replace_names_Layout_references.
  - rewrite for_each_reads; [apply agree_on_plain_refl|].
    intros d. apply replace_names_Dataset_reads.
Qed.

End References.

(** X5: when no dataset reference of a query starts with [dashboards/],
    the datasets and the dataset references of all queries are renamed by
    one and the same function of the old name, so a query that named a
    dataset of the dashboard names it still. *)
Theorem with_better_names_keeps_references
    (widgetType : WidgetSpec → option string) (dashboard : Dashboard.t) :
  Forall (λ page, Forall plain_Layout (Page.layout page)) (Dashboard.pages dashboard) →
  let rename := better_name (display_names dashboard) in
  map Dataset.name (Dashboard.datasets (_with_better_names widgetType dashboard))
  = map rename (map Dataset.name (Dashboard.datasets dashboard))
  ∧ tile_dataset_names (_with_better_names widgetType dashboard)
    = map (map (fmap rename)) (tile_dataset_names dashboard).
Proof.
  intros Hplain. simpl. unfold _with_better_names. split.
  - by rewrite replace_names_datasets, map_map.
  - by apply replace_names_references.
Qed.

Lemma with_better_names_keeps_references_witness :
  let rename := better_name (display_names exported_dashboard) in
  map Dataset.name (Dashboard.datasets (_with_better_names lakeview_widgetType exported_dashboard))
  = map rename (map Dataset.name (Dashboard.datasets exported_dashboard))
  ∧ tile_dataset_names (_with_better_names lakeview_widgetType exported_dashboard)
    = map (map (fmap rename)) (tile_dataset_names exported_dashboard).
Proof.
  apply (with_better_names_keeps_references lakeview_widgetType exported_dashboard).
  repeat constructor.
Defined.

(** ** Widget names *)

Lemma for_each_Forall {A : Type} (f : A → Renaming A) (Q : A → Prop) (items : list A) :
  (∀ item names, Q (f item names).1) →
  ∀ names, Forall Q (for_each f items names).1.
Proof.
  intros Hf. induction items as [|item rest IH]; intros names; [constructor|].
  rewrite for_each_cons. simpl. by constructor.
Qed.

Lemma replace_names_Widget_named_by_tag
    (widgetType : WidgetSpec → option string) (node : Widget.t) (names : gmap string string) :
  named_by_tag widgetType (_replace_names_Widget widgetType node names).1.
Proof.
  rewrite replace_names_Widget_eq. simpl. intros spec tag. simpl.
  intros -> Htag. by rewrite Htag.
Qed.

(** X6: after normalization every widget whose spec declares a type tag is
    named by that tag, whatever it was called before; widgets of one kind
    therefore share one name. *)
Theorem with_better_names_names_widgets_by_tag
    (widgetType : WidgetSpec → option string) (dashboard : Dashboard.t) :
  Forall (λ l, named_by_tag widgetType (Layout.widget l))
    (tiles (_with_better_names widgetType dashboard)).
Proof.
  unfold _with_better_names, tiles. rewrite replace_names_eq. simpl.
  apply Forall_concat, Forall_fmap.
  apply for_each_Forall. intros p names. rewrite replace_names_Page_eq. simpl.
  apply for_each_Forall. intros l names'. rewrite replace_names_Layout_eq. simpl.
  apply replace_names_Widget_named_by_tag.
Qed.

(** ** References of field encodings to named queries *)

Lemma replace_names_NamedQuery_name (node : NamedQuery.t) (names : gmap string string) :
  is_Some (NamedQuery.query node) →
  NamedQuery.name (_replace_names_NamedQuery node names).1
  = better_name (_replace_names_NamedQuery node names).2 (NamedQuery.name node).
Proof.
  destruct node as [name [query|]]; [|by intros [? ?]]. intros _.
  rewrite replace_names_NamedQuery_Some. unfold better_name. simpl.
  destruct (String.prefix "dashboards/" name); simpl; [|done].
  by rewrite lookup_insert_eq.
Qed.

Lemma replace_names_NamedQuery_writes
    (node : NamedQuery.t) (names : gmap string string) (key : string) :
  (_replace_names_NamedQuery node names).2 !! key = names !! key
  ∨ better_name (_replace_names_NamedQuery node names).2 key
    = NamedQuery.name (_replace_names_NamedQuery node names).1.
Proof.
  destruct node as [name [query|]]; [|by left].
  rewrite replace_names_NamedQuery_Some. unfold better_name. simpl.
  destruct (String.prefix "dashboards/" name); simpl; [|by left].
  destruct (decide (name = key)) as [->|Hne].
  - right. by rewrite lookup_insert_eq.
  - left. by rewrite lookup_insert_ne.
Qed.

(** After the queries of a widget were walked, a key either holds what it
    held before or is sent to the new name of one of the queries. *)
Lemma for_each_NamedQuery_writes
    (queries : list NamedQuery.t) (names : gmap string string) (key : string) :
  (for_each _replace_names_NamedQuery queries names).2 !! key = names !! key
  ∨ better_name (for_each _replace_names_NamedQuery queries names).2 key
    ∈ map NamedQuery.name (for_each _replace_names_NamedQuery queries names).1.
Proof.
  revert names. induction queries as [|node rest IH]; intros names; [by left|].
  rewrite for_each_cons. simpl.
  destruct (IH (_replace_names_NamedQuery node names).2) as [Hsame|Hin].
  - destruct (replace_names_NamedQuery_writes node names key) as [Hsame'|Hname].
    + left. by rewrite Hsame.
    + right. apply elem_of_cons. left. rewrite <- Hname. unfold better_name.
      by rewrite Hsame.
  - right. by right.
Qed.

Lemma for_each_NamedQuery_reference
    (queries : list NamedQuery.t) (names : gmap string string) (node : NamedQuery.t) :
  node ∈ queries → is_Some (NamedQuery.query node) →
  better_name (for_each _replace_names_NamedQuery queries names).2 (NamedQuery.name node)
  ∈ map NamedQuery.name (for_each _replace_names_NamedQuery queries names).1.
Proof.
  revert names. induction queries as [|first rest IH]; intros names Hin Hquery.
  - by apply elem_of_nil in Hin.
  - rewrite for_each_cons. simpl.
    apply elem_of_cons in Hin. destruct Hin as [->|Hin]; [|right; by apply IH].
    destruct (for_each_NamedQuery_writes rest (_replace_names_NamedQuery first names).2
                (NamedQuery.name first)) as [Hsame|Hwritten]; [|by right].
    apply elem_of_cons. left. rewrite replace_names_NamedQuery_name by done.
    unfold better_name. by rewrite Hsame.
Qed.

Lemma replace_names_Widget_references
    (widgetType : WidgetSpec → option string) (node : Widget.t) (names : gmap string string) :
  references_kept node (_replace_names_Widget widgetType node names).1.
Proof.
  unfold references_kept. rewrite replace_names_Widget_eq. simpl. rewrite for_some_eq.
  destruct (Widget.spec node) as [[spec|kind fields]|]; simpl; try constructor.
  rewrite bind_eq. simpl.
  set (names' := (for_each _replace_names_NamedQuery (Widget.queries node) names).2).
  rewrite (for_each_pure _
             (λ f, ControlFieldEncoding.mk (ControlFieldEncoding.field_name f)
                     (better_name names' (ControlFieldEncoding.query_name f))
                     (ControlFieldEncoding.display_name f))); [|done].
  simpl. apply Forall2_fmap_r, Forall_Forall2_diag, Forall_forall.
  intros field _ (named_query & Hin & Hname & Hquery). simpl.
  rewrite <- Hname. by apply for_each_NamedQuery_reference.
Qed.

(** X7: a control field encoding that names a named query of its own
    widget, one that has a query, still names a named query of that widget
    after normalization: the encoding follows the renaming of the query. *)
Theorem with_better_names_keeps_field_references
    (widgetType : WidgetSpec → option string) (dashboard : Dashboard.t) :
  Forall2 (λ l l', references_kept (Layout.widget l) (Layout.widget l'))
    (tiles dashboard) (tiles (_with_better_names widgetType dashboard)).
Proof.
  unfold _with_better_names, tiles. rewrite replace_names_eq. simpl.
  generalize (for_each _replace_names_Dataset (Dashboard.datasets dashboard)
                (display_names dashboard)).2.
  induction (Dashboard.pages dashboard) as [|page pages IH]; intros names; [constructor|].
  rewrite for_each_cons. simpl. apply Forall2_app; [|apply IH].
  rewrite replace_names_Page_eq. simpl. clear IH.
  revert names. induction (Page.layout page) as [|l layout IH]; intros names; [constructor|].
  rewrite for_each_cons. simpl. constructor; [|apply IH].
  rewrite replace_names_Layout_eq. simpl. apply replace_names_Widget_references.
Qed.

(** ** Formatting a text without statements *)

Lemma format_statements_None
    (Expression : Type) (sql : Expression → string) (parsed_query : list (option Expression)) :
  Forall (λ statement, statement = None) parsed_query →
  format_statements Expression sql parsed_query = [].
Proof. induction 1 as [|statement rest -> _ IH]; [done|]. simpl. exact IH. Qed.

(** X8: when the parser succeeds but finds no statement in the text (it
    returns no entry, or only [None] entries), [_format_query] returns the
    empty text, not the text it was given. *)
Theorem format_query_without_statements
    (Expression : Type) (sqlglot_parse : string → option (list (option Expression)))
    (sql : Expression → string) (query : string) (parsed_query : list (option Expression)) :
  sqlglot_parse query = Some parsed_query →
  Forall (λ statement, statement = None) parsed_query →
  _format_query Expression sqlglot_parse sql query = "".
Proof.
  intros Hparse Hnone. unfold _format_query.
  by rewrite Hparse, format_statements_None.
Qed.

Lemma format_query_without_statements_witness :
  _format_query string comment_parse id "-- nothing to select yet" = "".
Proof.
  apply (format_query_without_statements string comment_parse id
           "-- nothing to select yet" [None]).
  - reflexivity.
  - repeat constructor.
Defined.

(** ** The files [save_to_folder] writes *)

Lemma replace_names_datasets_eq
    (widgetType : WidgetSpec → option string) (node : Dashboard.t)
    (names : gmap string string) :
  Dashboard.datasets (_replace_names widgetType node names).1
  = map (λ d, Dataset.mk (better_name names (Dataset.name d))
                (Dataset.display_name d) (Dataset.query d))
      (Dashboard.datasets node).
Proof.
  rewrite replace_names_eq. simpl.
  by rewrite (for_each_pure _
                (λ d, Dataset.mk (better_name names (Dataset.name d))
                        (Dataset.display_name d) (Dataset.query d))).
Qed.


(** ** Normalizing a built dashboard *)

Lemma replace_names_built_tile
    (widgetType : WidgetSpec → option string) (better_names : gmap string string)
    (dataset : Dataset.t) :
  fixes better_names →
  _replace_names_Layout widgetType (layout_of dataset) better_names
  = (normal_tile (default (Dataset.name dataset) (widgetType count_spec))
       (Dataset.name dataset),
     better_names).
Proof.
  intros Hfix. unfold layout_of.
  rewrite replace_names_Layout_eq, replace_names_Widget_eq.
  cbn [Layout.widget Layout.position Widget.queries Widget.spec Widget.name].
  rewrite for_each_cons, replace_names_NamedQuery_Some, replace_names_Query_eq.
  cbn -[String.prefix]. rewrite !fixes_default by done. reflexivity.
Qed.

Lemma with_better_names_built_eq
    (widgetType : WidgetSpec → option string) (dashboard_folder : Folder) :
  _with_better_names widgetType (create_dashboard dashboard_folder)
  = Dashboard.mk
      (map dataset_of (glob_sql dashboard_folder))
      [Page.mk (folder_name dashboard_folder) (Some (folder_name dashboard_folder))
         (map (λ f,
            normal_tile (default (stem (file_name f)) (widgetType count_spec))
              (stem (file_name f)))
            (glob_sql dashboard_folder))].
Proof.
  unfold _with_better_names.
  assert (Hfix : fixes (display_names (create_dashboard dashboard_folder))).
  { intros key found. rewrite display_names_lookup.
    apply last_display_own, own_names_create_dashboard. }
  revert Hfix. generalize (display_names (create_dashboard dashboard_folder)).
  intros names Hfix. rewrite create_dashboard_eq, replace_names_eq. simpl.
  rewrite (for_each_fixed _ (λ _, True)); [| |by apply Forall_true].
  2:{ intros [name display_name query] _. rewrite replace_names_Dataset_eq. simpl.
      by rewrite fixes_default. }
  simpl. rewrite bind_eq, replace_names_Page_eq. simpl.
  rewrite (for_each_results _ _
             (map (λ f,
                normal_tile (default (stem (file_name f)) (widgetType count_spec))
                  (stem (file_name f)))
                (glob_sql dashboard_folder))).
  - simpl. by rewrite fixes_default.
  - apply Forall2_fmap, Forall_Forall2_diag, Forall_true. intros f.
    by apply (replace_names_built_tile widgetType names (dataset_of f)).
Qed.

(** X10: normalizing a dashboard built from a folder changes nothing but
    the widget names: every widget takes the type tag of the counter spec
    when one is declared and keeps the stem of its file otherwise, while
    datasets, page, named queries (still [main_query], still over their
    dataset) and positions stay as built. *)
Theorem with_better_names_of_built
    (widgetType : WidgetSpec → option string) (dashboard_folder : Folder) :
  _with_better_names widgetType (create_dashboard dashboard_folder)
  = Dashboard.mk
      (map dataset_of (glob_sql dashboard_folder))
      [Page.mk (folder_name dashboard_folder) (Some (folder_name dashboard_folder))
         (map (λ f,
            normal_tile (default (stem (file_name f)) (widgetType count_spec))
              (stem (file_name f)))
            (glob_sql dashboard_folder))].
Proof. apply with_better_names_built_eq. Qed.

(** X12: in a dashboard built from a folder every tile has exactly one
    named query, and it refers by name to the dataset at the same position;
    this still holds after normalization. *)
Theorem create_dashboard_references
    (widgetType : WidgetSpec → option string) (dashboard_folder : Folder) :
  let built := create_dashboard dashboard_folder in
  let normalized := _with_better_names widgetType built in
  tile_dataset_names built
  = map (λ d, [Some (Dataset.name d)]) (Dashboard.datasets built)
  ∧ tile_dataset_names normalized
    = map (λ d, [Some (Dataset.name d)]) (Dashboard.datasets normalized).
Proof.
  cbv zeta. rewrite with_better_names_built_eq. unfold tile_dataset_names.
  rewrite tiles_create_dashboard, create_dashboard_eq. unfold tiles. simpl.
  rewrite app_nil_r, !map_map. done.
Qed.

(** ** File names and dataset names *)

Lemma append_cons (x : ascii) (a b : string) :
  String.append (String x a) b = String x (String.append a b).
Proof. reflexivity. Qed.

Lemma append_assoc (a b c : string) :
  String.append (String.append a b) c = String.append a (String.append b c).
Proof. induction a as [|x a IH]; [done|]. rewrite !append_cons. by f_equal. Qed.

Lemma rev_app_append (a b : string) :
  String.rev_app a b = String.append (String.rev_app a EmptyString) b.
Proof.
  revert b. induction a as [|x a IH]; intros b; simpl; [done|].
  rewrite (IH (String x b)). rewrite (IH (String x EmptyString)).
  by rewrite append_assoc.
Qed.

Lemma rev_app_app (a b c : string) :
  String.rev_app (String.append a b) c = String.rev_app b (String.rev_app a c).
Proof.
  revert c. induction a as [|x a IH]; intros c; [done|].
  rewrite append_cons. simpl. apply IH.
Qed.

Lemma rev_append (a b : string) :
  String.rev (String.append a b) = String.append (String.rev b) (String.rev a).
Proof. unfold String.rev. rewrite rev_app_app. apply rev_app_append. Qed.

Lemma length_append (a b : string) :
  String.length (String.append a b) = (String.length a + String.length b)%nat.
Proof. induction a as [|x a IH]; [done|]. rewrite append_cons. simpl. by f_equal. Qed.

Lemma substring_append (a b : string) :
  substring 0 (String.length a) (String.append a b) = a.
Proof.
  induction a as [|x a IH]; [by destruct b|]. rewrite append_cons. simpl. by f_equal.
Qed.

Lemma index_dot (s : string) : index 0 "." (String.append "lqs." s) = Some 3%nat.
Proof. by destruct s. Qed.

Lemma prefix_lqs (s : string) : String.prefix "lqs." (String.append "lqs." s) = true.
Proof. by destruct s. Qed.

Lemma endswith_sql (s : string) : endswith (String.append s ".sql") ".sql" = true.
Proof. unfold endswith. rewrite rev_append. apply prefix_lqs. Qed.

Lemma stem_sql (s : string) : s ≠ EmptyString → stem (String.append s ".sql") = s.
Proof.
  intros Hs. unfold stem, rfind_dot.
  rewrite rev_append. change (String.rev ".sql") with "lqs.". rewrite index_dot.
  rewrite length_append. simpl.
  replace (String.length s + 4 - 1 - 3)%nat with (String.length s) by lia.
  assert (Hlen : (0 < String.length s)%nat) by (destruct s; [done|simpl; lia]).
  destruct (Nat.ltb_spec 0 (String.length s)) as [_|?]; [|lia].
  destruct (Nat.ltb_spec (String.length s) (String.length s + 4 - 1)) as [_|?]; [|lia].
  simpl. apply substring_append.
Qed.

Lemma glob_sql_folder_of_queries (name : string) (queries : list (string * string)) :
  glob_sql (folder_of_queries name queries)
  = map (λ q, sql_file (String.append q.1 ".sql") q.2) queries.
Proof.
  unfold glob_sql, folder_of_queries. simpl.
  induction queries as [|q queries IH]; [done|]. simpl.
  rewrite filter_cons, decide_True by apply endswith_sql. by rewrite IH.
Qed.

(** X11: when a folder holds the files [<name>.sql] for a list of non-empty
    names, each with its text, the built dashboard has exactly one dataset
    and one tile for each of them, in the order of enumeration; dataset and
    widget are called [<name>] and the dataset's query is the text. *)
Theorem create_dashboard_of_queries (name : string) (queries : list (string * string)) :
  Forall (λ q, q.1 ≠ EmptyString) queries →
  Dashboard.datasets (create_dashboard (folder_of_queries name queries))
  = map (λ q, Dataset.mk q.1 (Some q.1) q.2) queries
  ∧ tile_names (create_dashboard (folder_of_queries name queries)) = map fst queries.
Proof.
  intros Hqueries. unfold tile_names.
  rewrite tiles_create_dashboard, create_dashboard_eq, glob_sql_folder_of_queries.
  simpl. rewrite !map_map. split.
  - apply map_ext_Forall, (Forall_impl _ _ _ Hqueries). intros [n text] Hn.
    unfold dataset_of. simpl in *. by rewrite stem_sql.
  - apply map_ext_Forall, (Forall_impl _ _ _ Hqueries). intros [n text] Hn.
    simpl in *. by rewrite stem_sql.
Qed.

Lemma create_dashboard_of_queries_witness :
  Dashboard.datasets
    (create_dashboard
       (folder_of_queries "counters" [("a", "SELECT 1 AS count"); ("b.v2", "SELECT 2 AS count")]))
  = map (λ q, Dataset.mk q.1 (Some q.1) q.2)
      [("a", "SELECT 1 AS count"); ("b.v2", "SELECT 2 AS count")]
  ∧ tile_names
      (create_dashboard
         (folder_of_queries "counters" [("a", "SELECT 1 AS count"); ("b.v2", "SELECT 2 AS count")]))
    = map fst [("a", "SELECT 1 AS count"); ("b.v2", "SELECT 2 AS count")].
Proof.
  apply (create_dashboard_of_queries "counters"
           [("a", "SELECT 1 AS count"); ("b.v2", "SELECT 2 AS count")]).
  repeat constructor; discriminate.
Defined.

(** ** From a folder to a dashboard and back *)



(** ** Dashboards that are already normal *)

(** X14: a dashboard is left exactly as it is when its datasets and pages
    declare no display name other than their own name, none of its named
    queries that have a query has a name starting with [dashboards/], and
    every widget whose spec declares a type tag is already named by it. *)
Theorem with_better_names_fixed_point
    (widgetType : WidgetSpec → option string) (dashboard : Dashboard.t) :
  Forall keeps_own_name (name_entries dashboard) →
  settled widgetType dashboard →
  _with_better_names widgetType dashboard = dashboard.
Proof.
  intros Hown Hsettled. unfold _with_better_names.
  rewrite replace_names_fixed; [done| |done].
  intros key found. rewrite display_names_lookup. intros Hin%last_display_elem.
  rewrite Forall_forall in Hown. by apply (Hown _ Hin).
Qed.

Lemma with_better_names_fixed_point_witness :
  _with_better_names lakeview_widgetType
    (normal_dashboard "counter" two_counters_folder)
  = normal_dashboard "counter" two_counters_folder.
Proof.
  apply (with_better_names_fixed_point lakeview_widgetType
           (normal_dashboard "counter" two_counters_folder)).
  - vm_compute. repeat constructor.
  - vm_compute. repeat constructor.
Defined.

(** * Normalizing twice *)

(** ** A walk that leaves the dashboard alone *)

Lemma for_each_fixed_state {A : Type} (f : A → Renaming A)
    (I : gmap string string → Prop) (P : A → Prop) (items : list A) :
  (∀ item names, P item → I names → (f item names).1 = item ∧ I (f item names).2) →
  ∀ names, Forall P items → I names →
    (for_each f items names).1 = items ∧ I (for_each f items names).2.
Proof.
  intros Hf. induction items as [|item rest IH]; intros names Hitems Hnames; [done|].
  inversion Hitems as [|? ? Hitem Hrest]; subst.
  rewrite for_each_cons. simpl.
  destruct (Hf item names Hitem Hnames) as [-> Hnames'].
  destruct (IH _ Hrest Hnames') as [-> Hnames'']. done.
Qed.

Lemma fixes_insert (better_names : gmap string string) (key : string) :
  fixes better_names → fixes (<[key := key]> better_names).
Proof.
  intros Hfix key' found. destruct (decide (key = key')) as [->|Hne].
  - rewrite lookup_insert_eq. by intros [= <-].
  - rewrite lookup_insert_ne by done. apply Hfix.
Qed.

Lemma replace_names_NamedQuery_normal (node : NamedQuery.t) (names : gmap string string) :
  synthesized_NamedQuery node → fixes names →
  (_replace_names_NamedQuery node names).1 = node
  ∧ fixes (_replace_names_NamedQuery node names).2.
Proof.
  destruct node as [name [query|]]; [|done].
  unfold synthesized_NamedQuery, reserved. simpl. intros Hname Hfix.
  rewrite replace_names_NamedQuery_Some, (replace_names_Query_fixed names Hfix). simpl.
  destruct (String.prefix "dashboards/" name); simpl.
  - rewrite <- (Hname eq_refl). split; [done|]. by apply fixes_insert.
  - by rewrite fixes_default.
Qed.

Section NormalWalk.

Variable widgetType : WidgetSpec → option string.

Lemma replace_names_Widget_normal (node : Widget.t) (names : gmap string string) :
  normal_Widget widgetType node → fixes names →
  (_replace_names_Widget widgetType node names).1 = node
  ∧ fixes (_replace_names_Widget widgetType node names).2.
Proof.
  destruct node as [name queries spec]. intros [Hqueries Hname] Hfix. simpl in *.
  rewrite replace_names_Widget_eq. simpl.
  destruct (for_each_fixed_state _replace_names_NamedQuery fixes synthesized_NamedQuery
              queries replace_names_NamedQuery_normal names Hqueries Hfix) as [-> Hfix'].
  rewrite for_some_eq. destruct spec as [spec|]; simpl; [|done].
  rewrite (replace_names_WidgetSpec_fixed _ Hfix'). simpl. by rewrite Hname.
Qed.

Lemma replace_names_Page_normal (node : Page.t) (names : gmap string string) :
  normal_Page widgetType node → fixes names →
  (_replace_names_Page widgetType node names).1 = node
  ∧ fixes (_replace_names_Page widgetType node names).2.
Proof.
  destruct node as [name display_name layout]. unfold normal_Page. simpl.
  intros Hlayout Hfix. rewrite replace_names_Page_eq. simpl.
  destruct (for_each_fixed_state (_replace_names_Layout widgetType) fixes
              (λ l, normal_Widget widgetType (Layout.widget l)) layout)
    with (names := names) as [-> Hfix']; [|done|done|].
  - intros [widget position] names' Hwidget Hnames'. simpl in Hwidget.
    rewrite replace_names_Layout_eq. simpl.
    destruct (replace_names_Widget_normal widget names' Hwidget Hnames') as [-> ?]. done.
  - by rewrite fixes_default.
Qed.

Lemma replace_names_normal (node : Dashboard.t) (names : gmap string string) :
  normal widgetType node → fixes names →
  (_replace_names widgetType node names).1 = node.
Proof.
  destruct node as [datasets pages]. unfold normal. simpl. intros Hpages Hfix.
  rewrite replace_names_eq. simpl.
  rewrite (for_each_fixed _ (λ _, True)); [| |by apply Forall_true].
  2:{ intros [name display_name query] _. rewrite replace_names_Dataset_eq. simpl.
      by rewrite fixes_default. }
  simpl.
  destruct (for_each_fixed_state (_replace_names_Page widgetType) fixes
              (normal_Page widgetType) pages replace_names_Page_normal names Hpages Hfix)
    as [-> _].
  done.
Qed.

End NormalWalk.

(** ** The first pass makes the dashboard normal *)

Lemma for_each_state_Forall {A : Type} (f : A → Renaming A)
    (I : gmap string string → Prop) (Q : A → Prop) (items : list A) :
  (∀ item names, I names → I (f item names).2 ∧ Q (f item names).1) →
  ∀ names, I names →
    I (for_each f items names).2 ∧ Forall Q (for_each f items names).1.
Proof.
  intros Hf. induction items as [|item rest IH]; intros names Hnames.
  - split; [done|constructor].
  - rewrite for_each_cons. simpl.
    destruct (Hf item names Hnames) as [Hnames' Hitem].
    destruct (IH _ Hnames') as [Hnames'' Hrest].
    split; [done|by constructor].
Qed.

Section MakesNormal.

Variable widgetType : WidgetSpec → option string.
Variable m0 : gmap string string.
Hypothesis Hvalues : plain_values m0.

Lemma replace_names_NamedQuery_synthesized (node : NamedQuery.t) (names : gmap string string) :
  agree_on_plain m0 names →
  agree_on_plain m0 (_replace_names_NamedQuery node names).2
  ∧ synthesized_NamedQuery (_replace_names_NamedQuery node names).1.
Proof.
  intros Hagree. split; [by apply replace_names_NamedQuery_agree|].
  destruct node as [name [query|]]; [|done].
  rewrite replace_names_NamedQuery_Some. unfold synthesized_NamedQuery.
  destruct (String.prefix "dashboards/" name) eqn:Hname; simpl; [done|].
  intros Hreserved. exfalso.
  assert (Hplain : plain (default name (names !! name))).
  { rewrite (Hagree name Hname).
    destruct (m0 !! name) as [found|] eqn:Hfound; simpl; [|done].
    by apply (Hvalues name). }
  unfold plain in Hplain. congruence.
Qed.

Lemma replace_names_Widget_makes_normal (node : Widget.t) (names : gmap string string) :
  agree_on_plain m0 names →
  agree_on_plain m0 (_replace_names_Widget widgetType node names).2
  ∧ normal_Widget widgetType (_replace_names_Widget widgetType node names).1.
Proof.
  intros Hagree. split; [by apply replace_names_Widget_agree|].
  rewrite replace_names_Widget_eq. simpl.
  destruct (for_each_state_Forall _replace_names_NamedQuery (agree_on_plain m0)
              synthesized_NamedQuery (Widget.queries node)
              replace_names_NamedQuery_synthesized names Hagree) as [_ Hqueries].
  split; simpl; [done|].
  destruct (for_some _ _ _).1 as [spec|]; [|done].
  by destruct (widgetType spec).
Qed.

Lemma replace_names_Page_makes_normal (node : Page.t) (names : gmap string string) :
  agree_on_plain m0 names →
  agree_on_plain m0 (_replace_names_Page widgetType node names).2
  ∧ normal_Page widgetType (_replace_names_Page widgetType node names).1.
Proof.
  intros Hagree. split; [by apply replace_names_Page_agree|].
  rewrite replace_names_Page_eq. unfold normal_Page. simpl.
  apply (for_each_state_Forall (_replace_names_Layout widgetType) (agree_on_plain m0)
           (λ l, normal_Widget widgetType (Layout.widget l))); [|done].
  intros l names' Hnames'. rewrite replace_names_Layout_eq. simpl.
  by apply replace_names_Widget_makes_normal.
Qed.

Lemma replace_names_makes_normal (node : Dashboard.t) :
  normal widgetType (_replace_names widgetType node m0).1.
Proof.
  rewrite replace_names_eq. unfold normal. simpl.
  apply (for_each_state_Forall (_replace_names_Page widgetType) (agree_on_plain m0)
           (normal_Page widgetType)); [apply replace_names_Page_makes_normal|].
  rewrite for_each_reads; [apply agree_on_plain_refl|].
  intros d. apply replace_names_Dataset_reads.
Qed.

End MakesNormal.

Lemma replace_names_name_entries
    (widgetType : WidgetSpec → option string) (node : Dashboard.t)
    (names : gmap string string) :
  Forall (λ page, plain (Page.name page)) (Dashboard.pages node) →
  name_entries (_replace_names widgetType node names).1
  = map (λ e, (better_name names e.1, e.2)) (name_entries node).
Proof.
  intros Hplain. unfold name_entries. rewrite map_app, !map_map. f_equal.
  - rewrite replace_names_datasets_eq, map_map. done.
  - rewrite replace_names_eq. simpl.
    apply (for_each_map_state _ (agree_on_plain names) (λ page, plain (Page.name page)));
      [| |done|].
    + intros p names'. apply replace_names_Page_agree.
    + intros p names' Hp Hagree. rewrite replace_names_Page_eq. simpl. f_equal.
      apply (better_name_agree names); [|done].
      apply for_each_state; [|done]. intros l names''. apply replace_names_Layout_agree.
    + rewrite for_each_reads; [apply agree_on_plain_refl|].
      intros d. apply replace_names_Dataset_reads.
Qed.

Lemma plain_values_of_plain_displays (dashboard : Dashboard.t) :
  plain_displays dashboard → plain_values (display_names dashboard).
Proof.
  intros [Hdatasets Hpages] key found.
  rewrite display_names_lookup. intros Hin%last_display_elem.
  unfold name_entries in Hin. apply elem_of_app in Hin.
  destruct Hin as [Hin|Hin]; apply list_elem_of_fmap in Hin; destruct Hin as (x & [= -> Hd] & Hx).
  - rewrite Forall_forall in Hdatasets. specialize (Hdatasets x Hx).
    by rewrite <- Hd in Hdatasets.
  - rewrite Forall_forall in Hpages. destruct (Hpages x Hx) as [_ Hdisplay].
    by rewrite <- Hd in Hdisplay.
Qed.

(** A second pass also changes the result through a page name: a page
    whose name starts with [dashboards/] and is the name of one of its
    named queries is renamed by the first pass, and the named query again
    by the second. *)
Lemma with_better_names_page_clash :
  _with_better_names lakeview_widgetType (_with_better_names lakeview_widgetType page_clash_dashboard)
  ≠ _with_better_names lakeview_widgetType page_clash_dashboard.
Proof. vm_compute. intros H. discriminate H. Qed.

(** C10, amended: name normalization is idempotent on every dashboard in
    which no display name of a dataset or page and no page name starts with
    [dashboards/], whatever the dataset names, the dataset references of
    queries and the type tags of specs are: a second pass changes no
    dataset name, page name, dataset reference, named-query name, query
    name of a field encoding or widget name. *)
Theorem with_better_names_idempotent
    (widgetType : WidgetSpec → option string) (dashboard : Dashboard.t) :
  plain_displays dashboard →
  _with_better_names widgetType (_with_better_names widgetType dashboard)
  = _with_better_names widgetType dashboard.
Proof.
  intros Hplain. unfold _with_better_names at 1.
  apply replace_names_normal.
  - unfold _with_better_names.
    apply replace_names_makes_normal, plain_values_of_plain_displays, Hplain.
  - intros key found. unfold _with_better_names.
    rewrite display_names_lookup, replace_names_name_entries.
    + rewrite (map_ext _ (λ e, (default e.1 (last_display e.1 (name_entries dashboard)), e.2))).
      * by apply (renamed_entries_fixed _ []).
      * intros e. unfold better_name. by rewrite display_names_lookup.
    + destruct Hplain as [_ Hpages]. apply (Forall_impl _ _ _ Hpages). by intros p [? _].
Qed.

Lemma with_better_names_idempotent_witness :
  _with_better_names lakeview_widgetType
    (_with_better_names lakeview_widgetType prefixed_dashboard)
  = _with_better_names lakeview_widgetType prefixed_dashboard.
Proof.
  apply (with_better_names_idempotent lakeview_widgetType prefixed_dashboard).
  vm_compute. repeat constructor.
Defined.

(** * Formatting and the exceptions of the library *)

Lemma generate_statements_total
    (Expression : Type) (sql : Expression → attempt string) (text : Expression → string)
    (parsed_query : list (option Expression)) :
  (∀ statement, sql statement = Done (text statement)) →
  generate_statements Expression sql parsed_query
  = Done (format_statements Expression text parsed_query).
Proof.
  intros Hsql. induction parsed_query as [|[statement|] rest IH]; simpl; [done| |done].
  by rewrite Hsql, IH.
Qed.

(** When [ParseError] is the only exception of the parser and the generator
    raises nothing, [_format_query_raising] returns what [_format_query]
    computes. *)
Lemma format_query_raising_pure
    (Expression : Type) (sqlglot_parse : string → attempt (list (option Expression)))
    (sql : Expression → attempt string) (text : Expression → string) (query : string) :
  (∀ e, sqlglot_parse query = Raises e → ∃ message, e = ParseError message) →
  (∀ statement, sql statement = Done (text statement)) →
  _format_query_raising Expression sqlglot_parse sql query
  = Done (_format_query Expression (caught_parse Expression sqlglot_parse) text query).
Proof.
  intros Hparse Hsql. unfold _format_query_raising, _format_query, caught_parse.
  destruct (sqlglot_parse query) as [parsed_query|e].
  - by rewrite (generate_statements_total _ _ text).
  - destruct (Hparse e eq_refl) as [message ->]. done.
Qed.




(** * Deploying and fetching back *)





